(** * AI Context Reporter: capture-and-reporting pipeline

    A shallow embedding of the sanitizer, the element locator, the runtime
    tap, the interaction recorder and the session controller of the
    browser extension, together with the properties its specification
    states about them.

    Source files embedded here:
    - chrome-extension/lib/shared-utils.js  (sanitizeValue, sanitizeObject,
      getCssSelector), mirrored in the Safari extension's shared-utils.js;
    - chrome-extension/lib/session-recorder.js (session tap and controller);
    - chrome-extension/lib/interaction-recorder.js (input/submit capture);
    - the Safari extension's content.js (always-on tap, getCssSelector,
      extractElementData). *)

From Stdlib Require Import List String Ascii ZArith Lia Bool Arith.
From Stdlib Require Import DecimalString.
Import ListNotations.
Open Scope string_scope.
Open Scope Z_scope.
Set Warnings "-register-all".

(* ================================================================== *)
(** * JavaScript strings and a few built-ins *)
(* ================================================================== *)

Module Js.

(** [s.length] *)
Definition length (s : string) : Z := Z.of_nat (String.length s).

(** [s.substring(0, n)]: the end index is clamped to [0, s.length]. *)
Definition substring0 (n : Z) (s : string) : string :=
  String.substring 0 (Z.to_nat n) s.

(** [s.startsWith(p)] *)
Definition startsWith (p s : string) : bool := String.prefix p s.

(** String concatenation with a number: ['' + n]. *)
Definition of_Z (n : Z) : string := NilZero.string_of_int (Z.to_int n).

Definition lower_ascii (c : ascii) : ascii :=
  let n := nat_of_ascii c in
  if (Nat.leb 65 n && Nat.leb n 90)%bool then ascii_of_nat (n + 32) else c.

Definition upper_ascii (c : ascii) : ascii :=
  let n := nat_of_ascii c in
  if (Nat.leb 97 n && Nat.leb n 122)%bool then ascii_of_nat (n - 32) else c.

Fixpoint map_string (f : ascii -> ascii) (s : string) : string :=
  match s with
  | EmptyString => EmptyString
  | String c s' => String (f c) (map_string f s')
  end.

Definition toLowerCase : string -> string := map_string lower_ascii.
Definition toUpperCase : string -> string := map_string upper_ascii.

(** [hay.includes(needle)] *)
Fixpoint includes (needle hay : string) : bool :=
  if String.prefix needle hay then true
  else match hay with
       | EmptyString => false
       | String _ hay' => includes needle hay'
       end.

(** [parts.join(sep)] *)
Fixpoint join (sep : string) (parts : list string) : string :=
  match parts with
  | [] => ""
  | [p] => p
  | p :: rest => p ++ sep ++ join sep rest
  end.

(** Objects built by assignment: [o[k] = v] replaces the value of an
    existing key in place and appends a new key at the end (the
    engine's reordering of integer-like keys is not represented). *)
Fixpoint obj_set {A : Type} (k : string) (v : A) (o : list (string * A))
  : list (string * A) :=
  match o with
  | [] => [(k, v)]
  | (k', v') :: o' =>
      if String.eqb k' k then (k', v) :: o' else (k', v') :: obj_set k v o'
  end.

(** [o[k]] *)
Fixpoint obj_get {A : Type} (k : string) (o : list (string * A)) : option A :=
  match o with
  | [] => None
  | (k', v) :: o' => if String.eqb k' k then Some v else obj_get k o'
  end.

Definition obj_keys {A : Type} (o : list (string * A)) : list string :=
  map fst o.

End Js.

(* ================================================================== *)
(** * Bounded sanitizer (shared-utils.js) *)
(* ================================================================== *)

Module Sanitizer.

Definition MAX_STRING_LENGTH : Z := 200.
Definition MAX_OBJECT_DEPTH : Z := 3.
Definition MAX_OBJECT_KEYS : Z := 20.
Definition MAX_ARRAY_LENGTH : Z := 10.

Definition Addr := nat.

(** Runtime values handed to the sanitizer.  Arrays and plain objects
    live in a heap and are referred to by address, so that a value may
    reach itself ([a.self = a]).  Numbers are passed through untouched
    by the sanitizer, their payload is never inspected. *)
Inductive Value : Type :=
| VNull
| VUndefined
| VBool (b : bool)
| VNumber (n : Z)
| VString (s : string)
| VSymbol (description : string)     (* typeof is neither object nor function;
                                        [String(value)] is the payload *)
| VFunction (name : string)
| VDate (iso : string)               (* [value.toISOString()] *)
| VRegExp (source : string)          (* [value.toString()] *)
| VError (message : string)
| VElement (tagName : string)
| VRef (a : Addr).

(** A property read [obj[key]] either yields a value or throws (a
    framework getter on a stale reference). *)
Inductive Property : Type :=
| Data (v : Value)
| ThrowingGetter.

Inductive HeapObj : Type :=
| HArray (items : list Value)
| HObject (props : list (string * Property)).

Definition Heap := Addr -> HeapObj.

(** Results.  [SPrim v] is a value returned as it is; arrays and objects
    of a result are always freshly built. *)
Inductive Sanitized : Type :=
| SPrim (v : Value)
| SArray (items : list Sanitized)
| SObject (fields : list (string * Sanitized)).

Definition str (s : string) : Sanitized := SPrim (VString s).

Definition typeof (v : Value) : string :=
  match v with
  | VUndefined => "undefined"
  | VBool _ => "boolean"
  | VNumber _ => "number"
  | VString _ => "string"
  | VSymbol _ => "symbol"
  | VFunction _ => "function"
  | VNull | VDate _ | VRegExp _ | VError _ | VElement _ | VRef _ => "object"
  end.

(** [!v] *)
Definition falsy (v : Value) : bool :=
  match v with
  | VNull | VUndefined => true
  | VBool b => negb b
  | VNumber n => n =? 0
  | VString s => String.eqb s ""
  | _ => false
  end.

Fixpoint index_keys (start count : nat) : list string :=
  match count with
  | O => []
  | S c => Js.of_Z (Z.of_nat start) :: index_keys (S start) c
  end.

Section WithHeap.

Variable h : Heap.

(** [Object.keys(obj)] for a non-null value whose typeof is object.
    Dates, regular expressions, errors and elements are taken without
    own enumerable properties. *)
Definition Object_keys (obj : Value) : list string :=
  match obj with
  | VRef a =>
      match h a with
      | HArray items => index_keys 0 (List.length items)
      | HObject props => map fst props
      end
  | _ => []
  end.

Fixpoint nth_key (items : list Value) (i : nat) (key : string) : Property :=
  match items with
  | [] => Data VUndefined
  | v :: rest =>
      if String.eqb (Js.of_Z (Z.of_nat i)) key then Data v
      else nth_key rest (S i) key
  end.

(** [obj[key]] *)
Definition get (obj : Value) (key : string) : Property :=
  match obj with
  | VRef a =>
      match h a with
      | HArray items => nth_key items 0 key
      | HObject props =>
          match Js.obj_get key props with
          | Some p => p
          | None => Data VUndefined
          end
      end
  | _ => Data VUndefined
  end.

(** The callback of [keys.forEach] in [sanitizeObject]; [sanitizeValue]
    is the function it calls on the property value. *)
Definition forEach_key
    (sanitizeValue : Value -> Z -> Z -> Sanitized)
    (obj : Value) (depth maxStringLength : Z)
    (result : list (string * Sanitized)) (key : string)
  : list (string * Sanitized) :=
  if (Js.startsWith "__" key || Js.startsWith "$$" key)%bool
  then result
  else match get obj key with
       | Data v =>
           Js.obj_set key (sanitizeValue v depth maxStringLength) result
       | ThrowingGetter =>
           Js.obj_set key (str "[Error reading property]") result
       end.

(** The body of [sanitizeObject]. *)
Definition sanitizeObject_with
    (sanitizeValue : Value -> Z -> Z -> Sanitized)
    (obj : Value) (depth maxStringLength : Z) : Sanitized :=
  if depth <=? 0 then str "[max depth]"
  else if (falsy obj || negb (String.eqb (typeof obj) "object"))%bool
  then SPrim obj
  else
    let all_keys := Object_keys obj in
    let '(keys, result) :=
      if Z.of_nat (List.length all_keys) >? MAX_OBJECT_KEYS
      then (firstn (Z.to_nat MAX_OBJECT_KEYS) all_keys,
            Js.obj_set "..."
              (str ("(" ++ Js.of_Z (Z.of_nat (List.length all_keys)
                                    - MAX_OBJECT_KEYS)
                        ++ " more keys)")) [])
      else (all_keys, [])
    in
    SObject
      (fold_left (forEach_key sanitizeValue obj depth maxStringLength)
         keys result).

(** The body of [sanitizeValue]; [self] stands for the recursive
    calls. *)
Definition sanitizeValue_body
    (self : Value -> Z -> Z -> Sanitized)
    (value : Value) (depth maxStringLength : Z) : Sanitized :=
  if depth <=? 0 then str "[max depth]"
  else
    match value with
    | VNull => SPrim VNull
    | VUndefined => SPrim VUndefined
    | VString s =>
        if Js.length s >? maxStringLength
        then str (Js.substring0 maxStringLength s ++ "...")
        else SPrim value
    | VNumber _ | VBool _ => SPrim value
    | VFunction name =>
        str ("[Function: "
             ++ (if String.eqb name "" then "anonymous" else name) ++ "]")
    | VDate iso => str iso
    | VRegExp source => str source
    | VError message => str ("[Error: " ++ message ++ "]")
    | VElement tagName =>
        str ("[Element: " ++ Js.toLowerCase tagName ++ "]")
    | VRef a =>
        match h a with
        | HArray items =>
            if Z.of_nat (List.length items) >? MAX_ARRAY_LENGTH
            then str ("[Array("
                      ++ Js.of_Z (Z.of_nat (List.length items)) ++ ")]")
            else SArray
                   (map (fun v => self v (depth - 1) maxStringLength)
                        (firstn (Z.to_nat MAX_ARRAY_LENGTH) items))
        | HObject _ =>
            sanitizeObject_with self value (depth - 1) maxStringLength
        end
    | VSymbol description => str description
    end.

(** The recursion of [sanitizeValue] unrolled [n] times.  Every
    recursive call lowers [depth] by one and a call with
    [depth <= 0] answers at once, so [depth] unrollings and one more
    are all a call ever uses: [sanitizeValue_eq] below shows that
    [sanitizeValue] satisfies the recursive equation of the source. *)
Fixpoint sanitizeValue_rec (n : nat) : Value -> Z -> Z -> Sanitized :=
  match n with
  | O => fun _ _ _ => str "[max depth]"
  | S n' => sanitizeValue_body (sanitizeValue_rec n')
  end.

Definition sanitizeValue (value : Value) (depth maxStringLength : Z)
  : Sanitized :=
  sanitizeValue_rec (S (Z.to_nat depth)) value depth maxStringLength.

Definition sanitizeObject (obj : Value) (depth maxStringLength : Z)
  : Sanitized :=
  sanitizeObject_with sanitizeValue obj depth maxStringLength.

End WithHeap.

(** Nesting depth of a result: arrays and objects count one level. *)
Fixpoint nesting (s : Sanitized) : nat :=
  match s with
  | SPrim _ => 0
  | SArray items => S (list_max (map nesting items))
  | SObject fields =>
      S (list_max (map (fun kv => nesting (snd kv)) fields))
  end.

(** Values that [JSON.stringify] takes without a live host object
    behind them. *)
Definition json_primitive (v : Value) : bool :=
  match v with
  | VNull | VUndefined | VBool _ | VNumber _ | VString _ => true
  | _ => false
  end.

Fixpoint json_safe (s : Sanitized) : bool :=
  match s with
  | SPrim v => json_primitive v
  | SArray items => forallb json_safe items
  | SObject fields => forallb (fun kv => json_safe (snd kv)) fields
  end.

(** [let a = {}; a.self = a] *)
Definition self_heap : Heap := fun _ => HObject [("self", Data (VRef 0%nat))].
Definition self_a : Value := VRef 0%nat.


(** The result is JSON-safe and nests at most [k] levels. *)
Definition bounded (k : nat) (s : Sanitized) : Prop :=
  json_safe s = true /\ (nesting s <= k)%nat.

Definition three_levels : Sanitized :=
  SObject [("self", SObject [("self", SObject [("self", str "[max depth]")])])].

Definition two_levels : Sanitized :=
  SObject [("self", SObject [("self", str "[max depth]")])].

(** The keys of a result other than the counter key. *)
Definition data_keys (fields : list (string * Sanitized)) : list string :=
  filter (fun k => negb (String.eqb k "...")) (map fst fields).

Definition counter (omitted : Z) : Sanitized :=
  str ("(" ++ Js.of_Z omitted ++ " more keys)").

(** An object with 21 keys, the first of which is spelled ["..."]. *)
Definition dots_object : list (string * Property) :=
  ("...", Data (VNumber 7))
    :: map (fun k => (k, Data (VBool true)))
         ["k01"; "k02"; "k03"; "k04"; "k05"; "k06"; "k07"; "k08"; "k09";
          "k10"; "k11"; "k12"; "k13"; "k14"; "k15"; "k16"; "k17"; "k18";
          "k19"; "k20"].

Definition dots_heap : Heap := fun _ => HObject dots_object.

End Sanitizer.


(* ================================================================== *)
(** * Session recorder (session-recorder.js) *)
(* ================================================================== *)

Module SessionRecorder.

Definition MAX_ENTRIES : Z := 200.
Definition MAX_NETWORK : Z := 100.
Definition MAX_INTERACTIONS : Z := 500.
Definition MAX_BODY : Z := 5000.

(** ** Entries *)

Record ConsoleEntry : Type := mkConsole {
  c_type : string;
  c_message : string;
  c_stack : option string;
  c_timestamp : Z;
  c_source : option string;
  c_line : option Z
}.

Record NetworkEntry : Type := mkNetwork {
  n_url : string;
  n_method : string;
  n_status : Z;
  n_requestBody : option string;
  n_responseBody : option string;
  n_duration : Z;
  n_timestamp : Z;
  n_failed : bool;
  n_error : option string
}.

Record InteractionEntry : Type := mkInteraction {
  i_type : string;
  i_target : string;
  i_timestamp : option Z;
  i_label : option string;
  i_value : option string;
  i_formData : option (list (string * string));
  i_action : option string
}.

Record Snapshot : Type := mkSnapshot {
  s_label : string;
  s_timestamp : Z;
  s_url : string;
  s_localStorage : list (string * string);
  s_sessionStorage : list (string * string)
}.

(** ** Arrays and the session object

    The four logs of a session are JavaScript arrays: [push] and
    [shift] change them in place, and the object that
    [__AI_CONTEXT_STOP_SESSION__] returns holds the very arrays of the
    session.  Arrays are therefore kept in a store and named by
    reference. *)

Definition Ref := nat.
Definition Store (A : Type) := Ref -> list A.

Definition assign {A : Type} (r : Ref) (l : list A) (st : Store A) : Store A :=
  fun r' => if Nat.eqb r' r then l else st r'.

(** [arr.push(x)] *)
Definition push {A : Type} (r : Ref) (x : A) (st : Store A) : Store A :=
  assign r (st r ++ [x]) st.

(** [arr.shift()] *)
Definition shift {A : Type} (r : Ref) (st : Store A) : Store A :=
  assign r (tl (st r)) st.

(** [arr.push(x); if (arr.length > cap) arr.shift();] *)
Definition push_capped {A : Type} (cap : Z) (r : Ref) (x : A) (st : Store A)
  : Store A :=
  let st' := push r x st in
  if Z.of_nat (List.length (st' r)) >? cap then shift r st' else st'.

(** The list that [push_capped] leaves in the array, given the list
    that was there. *)
Definition capped {A : Type} (cap : Z) (l : list A) (x : A) : list A :=
  let l' := (l ++ [x])%list in
  if Z.of_nat (List.length l') >? cap then tl l' else l'.

Inductive SessionId : Type :=
| NoId
| GivenId (id : string)
| GeneratedId (now : Z).          (* [Date.now().toString(36)] *)

Record Session : Type := mkSession {
  isRecording : bool;
  sessionId : SessionId;
  startTime : option Z;
  endTime : option Z;
  consoleLog : Ref;
  networkLog : Ref;
  interactions : Ref;
  snapshots : Ref
}.

(** A request whose wrapper ran while the session was recording and
    whose completion handler has not run yet: the variables the
    handler closes over. *)
Record PendingFetch : Type := mkPendingFetch {
  pf_startTime : Z;
  pf_url : string;
  pf_method : string;
  pf_requestBody : option string
}.

Record PendingXhr : Type := mkPendingXhr {
  px_startTime : Z;
  px_requestBody : option string;
  px_sessionUrl : option string;
  px_sessionMethod : option string
}.

Inductive Pending : Type :=
| PFetch (c : PendingFetch)
| PXhr (c : PendingXhr).

(** The page context: the session object, the arrays, the allocation
    counter and the pending completion handlers. *)
Record Page : Type := mkPage {
  session : Session;
  consoleArrays : Store ConsoleEntry;
  networkArrays : Store NetworkEntry;
  interactionArrays : Store InteractionEntry;
  snapshotArrays : Store Snapshot;
  next : Ref;
  inflight : list (nat * Pending);
  nextRequest : nat
}.

Definition with_session (s : Session) (p : Page) : Page :=
  mkPage s (consoleArrays p) (networkArrays p) (interactionArrays p)
         (snapshotArrays p) (next p) (inflight p) (nextRequest p).

Definition with_console (st : Store ConsoleEntry) (p : Page) : Page :=
  mkPage (session p) st (networkArrays p) (interactionArrays p)
         (snapshotArrays p) (next p) (inflight p) (nextRequest p).

Definition with_network (st : Store NetworkEntry) (p : Page) : Page :=
  mkPage (session p) (consoleArrays p) st (interactionArrays p)
         (snapshotArrays p) (next p) (inflight p) (nextRequest p).

Definition with_interactions (st : Store InteractionEntry) (p : Page) : Page :=
  mkPage (session p) (consoleArrays p) (networkArrays p) st
         (snapshotArrays p) (next p) (inflight p) (nextRequest p).

Definition with_snapshots (st : Store Snapshot) (p : Page) : Page :=
  mkPage (session p) (consoleArrays p) (networkArrays p)
         (interactionArrays p) st (next p) (inflight p) (nextRequest p).

Definition with_inflight (l : list (nat * Pending)) (n : nat) (p : Page)
  : Page :=
  mkPage (session p) (consoleArrays p) (networkArrays p)
         (interactionArrays p) (snapshotArrays p) (next p) l n.

(** The state the injected script sets up. *)
Definition injected : Page :=
  mkPage (mkSession false NoId None None 0%nat 1%nat 2%nat 3%nat)
         (fun _ => []) (fun _ => []) (fun _ => []) (fun _ => [])
         4%nat [] 0%nat.

(** ** Console tap *)

(** The entry [captureConsole] pushes; [message] is [formatArgs(args)]
    and [stack] the stack string the function settles on before it
    cuts it. *)
Definition console_entry (e : string * string * option string * Z)
  : ConsoleEntry :=
  let '(type, message, stack, now) := e in
  mkConsole type (Js.substring0 2000 message)
    (match stack with
     | Some s => if String.eqb s "" then None else Some (Js.substring0 1000 s)
     | None => None
     end) now None None.

(** [captureConsole(type, args)] *)
Definition captureConsole (type message : string) (stack : option string)
    (now : Z) (p : Page) : Page :=
  if negb (isRecording (session p)) then p
  else
    with_console
      (push_capped MAX_ENTRIES (consoleLog (session p))
         (console_entry (type, message, stack, now)) (consoleArrays p))
      p.

(** The [window] listener for [error] events. *)
Definition onWindowError (message : string) (error_stack : option string)
    (filename : option string) (lineno : option Z) (now : Z) (p : Page)
  : Page :=
  if negb (isRecording (session p)) then p
  else
    with_console
      (push (consoleLog (session p))
         (mkConsole "error"
            (if String.eqb message "" then "Unknown error" else message)
            error_stack now filename lineno)
         (consoleArrays p))
      p.

Inductive Reason : Type :=
| NoReason
| ErrorReason (message : string) (stack : option string)
| StringReason (s : string)
| OtherReason.

(** The [window] listener for [unhandledrejection] events. *)
Definition onUnhandledRejection (reason : Reason) (now : Z) (p : Page)
  : Page :=
  if negb (isRecording (session p)) then p
  else
    let '(message, stack) :=
      match reason with
      | ErrorReason m st =>
          (if String.eqb m "" then "Unhandled Promise Rejection" else m, st)
      | StringReason s =>
          (if String.eqb s "" then "Unhandled Promise Rejection" else s, None)
      | NoReason | OtherReason => ("Unhandled Promise Rejection", None)
      end in
    with_console
      (push (consoleLog (session p))
         (mkConsole "error" ("[Promise] " ++ message) stack now None None)
         (consoleArrays p))
      p.

(** ** Network tap *)

Inductive Body : Type :=
| StringBody (s : string)
| OtherBody.

(** [response.ok]: the status is in the range 200 to 299. *)
Definition response_ok (status : Z) : bool :=
  ((200 <=? status) && (status <=? 299))%bool.

Definition captured_body (body : option Body) : option string :=
  match body with
  | Some (StringBody s) =>
      if String.eqb s "" then None else Some (Js.substring0 MAX_BODY s)
  | Some OtherBody => Some "[Binary/FormData]"
  | None => None
  end.

(** The wrapper of [window.fetch], up to the call of the original
    function.  [url] and [method] are the ones the wrapper resolves
    from its arguments.  When the session is not recording the call is
    handed on untouched and no handler is attached. *)
Definition fetch_call (url method : string) (body : option Body) (now : Z)
    (p : Page) : Page :=
  if negb (isRecording (session p)) then p
  else
    with_inflight
      ((nextRequest p,
        PFetch (mkPendingFetch now url method (captured_body body)))
         :: inflight p)
      (S (nextRequest p)) p.

(** The [then] handler of the wrapped fetch.  The entry is pushed
    with [responseBody: null]; the text of the body is written into
    the entry later and is left out here. *)
Definition fetch_then (c : PendingFetch) (status : Z) (now : Z) (p : Page)
  : Page :=
  with_network
    (push_capped MAX_NETWORK (networkLog (session p))
       (mkNetwork (Js.substring0 500 (pf_url c))
          (Js.toUpperCase (pf_method c)) status (pf_requestBody c) None
          (now - pf_startTime c) (pf_startTime c)
          (negb (response_ok status)) None)
       (networkArrays p))
    p.

(** The [catch] handler of the wrapped fetch. *)
Definition fetch_catch (c : PendingFetch) (error_message : string) (now : Z)
    (p : Page) : Page :=
  with_network
    (push (networkLog (session p))
       (mkNetwork (Js.substring0 500 (pf_url c))
          (Js.toUpperCase (pf_method c)) 0 (pf_requestBody c) None
          (now - pf_startTime c) (pf_startTime c) true
          (Some error_message))
       (networkArrays p))
    p.

(** The wrapper of [XMLHttpRequest.prototype.send]; [url] and [method]
    are the tags that the wrapper of [open] left on the instance. *)
Definition xhr_send (url method : option string) (body : option Body)
    (now : Z) (p : Page) : Page :=
  if negb (isRecording (session p)) then p
  else
    with_inflight
      ((nextRequest p,
        PXhr (mkPendingXhr now (captured_body body) url method))
         :: inflight p)
      (S (nextRequest p)) p.

Definition or_default (o : option string) (d : string) : string :=
  match o with
  | Some s => if String.eqb s "" then d else s
  | None => d
  end.

(** The [loadend] listener of a wrapped XHR. *)
Definition xhr_loadend (c : PendingXhr) (status : Z)
    (responseText : option string) (now : Z) (p : Page) : Page :=
  with_network
    (push_capped MAX_NETWORK (networkLog (session p))
       (mkNetwork (Js.substring0 500 (or_default (px_sessionUrl c) ""))
          (Js.toUpperCase (or_default (px_sessionMethod c) "GET"))
          status (px_requestBody c)
          (match responseText with
           | Some t => if String.eqb t "" then None
                       else Some (Js.substring0 MAX_BODY t)
           | None => None
           end)
          (now - px_startTime c) (px_startTime c)
          ((status =? 0) || (status >=? 400))%bool None)
       (networkArrays p))
    p.

(** How a pending request ends. *)
Inductive Outcome : Type :=
| Responded (status : Z) (responseText : option string)
| Rejected (error_message : string).

Fixpoint take_pending (id : nat) (l : list (nat * Pending))
  : option (Pending * list (nat * Pending)) :=
  match l with
  | [] => None
  | (id', c) :: l' =>
      if Nat.eqb id' id then Some (c, l')
      else match take_pending id l' with
           | Some (c', rest) => Some (c', (id', c) :: rest)
           | None => None
           end
  end.

(** The completion handler of the pending request [id] runs. *)
Definition settle (id : nat) (o : Outcome) (now : Z) (p : Page) : Page :=
  match take_pending id (inflight p) with
  | None => p
  | Some (c, rest) =>
      let p' := with_inflight rest (nextRequest p) p in
      match c, o with
      | PFetch c, Responded status _ => fetch_then c status now p'
      | PFetch c, Rejected m => fetch_catch c m now p'
      | PXhr c, Responded status text => xhr_loadend c status text now p'
      | PXhr c, Rejected _ => xhr_loadend c 0 None now p'
      end
  end.

(** ** Session control *)

Fixpoint toString36_digits (fuel : nat) (n : Z) (acc : string) : string :=
  match fuel with
  | O => acc
  | S fuel' =>
      let d := Z.to_nat (n mod 36) in
      let c := if Nat.ltb d 10 then ascii_of_nat (48 + d)
               else ascii_of_nat (87 + d) in
      if n / 36 =? 0 then String c acc
      else toString36_digits fuel' (n / 36) (String c acc)
  end.

(** [n.toString(36)] for a time stamp (fourteen digits hold every
    integer a number represents exactly). *)
Definition toString36 (n : Z) : string := toString36_digits 14 n "".

Definition show_id (id : SessionId) : string :=
  match id with
  | NoId => "null"
  | GivenId s => s
  | GeneratedId now => toString36 now
  end.

(** [__AI_CONTEXT_START_SESSION__(sessionId)].  The four logs are
    fresh arrays.  The closing [console.info] goes through the patched
    console, with [stack] the stack it records. *)
Definition start (id : option string) (stack : option string) (now : Z)
    (p : Page) : Page :=
  let sid := match id with
             | Some s => if String.eqb s "" then GeneratedId now else GivenId s
             | None => GeneratedId now
             end in
  let n := next p in
  let p' :=
    mkPage (mkSession true sid (Some now) (endTime (session p))
              n (S n) (S (S n)) (S (S (S n))))
           (assign n [] (consoleArrays p))
           (assign (S n) [] (networkArrays p))
           (assign (S (S n)) [] (interactionArrays p))
           (assign (S (S (S n))) [] (snapshotArrays p))
           (S (S (S (S n)))) (inflight p) (nextRequest p) in
  captureConsole "info"
    ("[AI Context] Recording session started: " ++ show_id sid) stack now p'.

(** The object that [__AI_CONTEXT_STOP_SESSION__] returns. *)
Record StoppedSession : Type := mkStopped {
  r_sessionId : SessionId;
  r_startTime : option Z;
  r_endTime : Z;
  r_duration : Z;
  r_consoleLog : Ref;
  r_networkLog : Ref;
  r_interactions : Ref;
  r_snapshots : Ref
}.

(** [__AI_CONTEXT_STOP_SESSION__()].  Its [console.info] finds
    [isRecording] false and records nothing. *)
Definition stop (now : Z) (p : Page) : Page * StoppedSession :=
  let s := session p in
  let s' := mkSession false (sessionId s) (startTime s) (Some now)
              (consoleLog s) (networkLog s) (interactions s) (snapshots s) in
  (with_session s' p,
   mkStopped (sessionId s) (startTime s) now
     (now - match startTime s with Some t => t | None => 0 end)
     (consoleLog s) (networkLog s) (interactions s) (snapshots s)).

Definition storage_entries (storage : list (string * string))
  : list (string * string) :=
  fold_left
    (fun acc kv =>
       if (negb (String.eqb (snd kv) "")
           && (Js.length (snd kv) <? 1000))%bool
       then Js.obj_set (fst kv) (snd kv) acc else acc)
    storage [].

(** [__AI_CONTEXT_TAKE_SNAPSHOT__(label)] *)
Definition takeSnapshot (label : option string) (url : string)
    (localStorage sessionStorage : list (string * string))
    (stack : option string) (now : Z) (p : Page) : Page :=
  if negb (isRecording (session p)) then p
  else
    let r := snapshots (session p) in
    let l := match label with
             | Some s =>
                 if String.eqb s "" then
                   "Snapshot " ++
                     Js.of_Z (Z.of_nat (List.length (snapshotArrays p r)) + 1)
                 else s
             | None =>
                 "Snapshot " ++
                   Js.of_Z (Z.of_nat (List.length (snapshotArrays p r)) + 1)
             end in
    let p' :=
      with_snapshots
        (push r (mkSnapshot l now url (storage_entries localStorage)
                   (storage_entries sessionStorage))
           (snapshotArrays p)) p in
    captureConsole "info" ("[AI Context] Snapshot taken: " ++ l) stack now p'.

(** [__AI_CONTEXT_ADD_INTERACTION__(interaction)] *)
Definition addInteraction (i : InteractionEntry) (now : Z) (p : Page)
  : Page :=
  if negb (isRecording (session p)) then p
  else
    let t := match i_timestamp i with
             | Some t => if t =? 0 then now else t
             | None => now
             end in
    with_interactions
      (push_capped MAX_INTERACTIONS (interactions (session p))
         (mkInteraction (i_type i) (i_target i) (Some t) (i_label i)
            (i_value i) (i_formData i) (i_action i))
         (interactionArrays p))
      p.

(** The answer of [__AI_CONTEXT_GET_SESSION__()]. *)
Record Status : Type := mkStatus {
  st_isRecording : bool;
  st_duration : Z;
  st_consoleCount : Z;
  st_networkCount : Z;
  st_interactionCount : Z;
  st_snapshotCount : Z
}.

Definition getSession (now : Z) (p : Page) : Status :=
  let s := session p in
  mkStatus (isRecording s)
    (if isRecording s
     then now - match startTime s with Some t => t | None => 0 end
     else 0)
    (Z.of_nat (List.length (consoleArrays p (consoleLog s))))
    (Z.of_nat (List.length (networkArrays p (networkLog s))))
    (Z.of_nat (List.length (interactionArrays p (interactions s))))
    (Z.of_nat (List.length (snapshotArrays p (snapshots s)))).

(** ** What happens on the page, one event at a time *)

Inductive Event : Type :=
| EStart (id : option string) (stack : option string) (now : Z)
| EStop (now : Z)
| EConsole (type message : string) (stack : option string) (now : Z)
| EWindowError (message : string) (error_stack filename : option string)
    (lineno : option Z) (now : Z)
| EUnhandledRejection (reason : Reason) (now : Z)
| EFetch (url method : string) (body : option Body) (now : Z)
| EXhrSend (url method : option string) (body : option Body) (now : Z)
| ESettle (id : nat) (o : Outcome) (now : Z)
| ESnapshot (label : option string) (url : string)
    (localStorage sessionStorage : list (string * string))
    (stack : option string) (now : Z)
| EInteraction (i : InteractionEntry) (now : Z).

Definition step (p : Page) (e : Event) : Page :=
  match e with
  | EStart id stack now => start id stack now p
  | EStop now => fst (stop now p)
  | EConsole type message stack now => captureConsole type message stack now p
  | EWindowError m st f l now => onWindowError m st f l now p
  | EUnhandledRejection r now => onUnhandledRejection r now p
  | EFetch url method body now => fetch_call url method body now p
  | EXhrSend url method body now => xhr_send url method body now p
  | ESettle id o now => settle id o now p
  | ESnapshot label url ls ss stack now =>
      takeSnapshot label url ls ss stack now p
  | EInteraction i now => addInteraction i now p
  end.

Definition run (events : list Event) (p : Page) : Page :=
  fold_left step events p.



(** A call of the console as an event. *)
Definition console_event (e : string * string * option string * Z) : Event :=
  let '(type, message, stack, now) := e in EConsole type message stack now.




End SessionRecorder.

(* ================================================================== *)
(** * Interaction recorder (interaction-recorder.js) *)
(* ================================================================== *)

Module InteractionRecorder.
Import SessionRecorder.

(** What the listeners read from an element. *)
Record Element : Type := mkElement {
  tagName : string;
  type : string;
  name : string;
  id : string;
  value : string
}.

(** [/k1|k2|.../i.test(s)] for lower-case key words. *)
Definition test_any (keywords : list string) (s : string) : bool :=
  existsb (fun k => Js.includes k (Js.toLowerCase s)) keywords.

(** [/email|phone|ssn|credit|card|cvv|pin/i], of the [input] listener. *)
Definition input_pattern : list string :=
  ["email"; "phone"; "ssn"; "credit"; "card"; "cvv"; "pin"].

(** [/email|phone|ssn|credit|card/i], of the [submit] listener. *)
Definition submit_pattern : list string :=
  ["email"; "phone"; "ssn"; "credit"; "card"].

Section Listeners.

(** [getSelector] and [getElementLabel] read the document; the
    listeners below only pass their results on. *)
Variable getSelector : Element -> string.
Variable getElementLabel : Element -> option string.

(** [formatInteraction(type, element, extras)], with the extras the
    listeners below pass. *)
Definition formatInteraction (type : string) (element : Element)
    (value : option string)
    (formData : option (option (list (string * string)))) (now : Z)
  : InteractionEntry :=
  mkInteraction type (getSelector element) (Some now)
    (match getElementLabel element with
     | Some l => if String.eqb l "" then None else Some l
     | None => None
     end)
    value
    (match formData with Some (Some fd) => Some fd | _ => None end)
    None.

(** The [input] listener: nothing is scheduled for a password field;
    otherwise the function below is what the debounce timer hands to
    [addInteraction] when it fires, [target] being the element as it
    is at that time. *)
Definition input_capture (target : Element) (now : Z)
  : option InteractionEntry :=
  if String.eqb (type target) "password" then None
  else
    let value := value target in
    let value :=
      if Js.length value >? 100
      then Js.substring0 97 value ++ "..." else value in
    let isSensitive :=
      (test_any input_pattern (name target)
       || test_any input_pattern (id target))%bool in
    let value :=
      if (isSensitive && negb (String.eqb value ""))%bool
      then "[masked]" else value in
    Some (formatInteraction "input" target (Some value) None now).

(** The callback of [inputs.forEach] in the [submit] listener. *)
Definition collect_field (formData : list (string * string))
    (input : Element) : list (string * string) :=
  if (negb (String.eqb (name input) "")
      && negb (String.eqb (type input) "password"))%bool
  then
    let value := value input in
    let value :=
      if (negb (String.eqb value "") && (Js.length value >? 50))%bool
      then Js.substring0 47 value ++ "..." else value in
    let value :=
      if (test_any submit_pattern (name input)
          && negb (String.eqb value ""))%bool
      then "[masked]" else value in
    Js.obj_set (name input) value formData
  else formData.

(** The [submit] listener; [inputs] is
    [target.querySelectorAll('input, select, textarea')] and
    [action] is [target.action]. *)
Definition submit_capture (target : Element) (inputs : list Element)
    (action : string) (now : Z) : option InteractionEntry :=
  if negb (String.eqb (tagName target) "FORM") then None
  else
    let formData := fold_left collect_field inputs [] in
    let interaction :=
      formatInteraction "submit" target None
        (Some (match formData with [] => None | _ => Some formData end))
        now in
    Some (mkInteraction (i_type interaction) (i_target interaction)
            (i_timestamp interaction) (i_label interaction)
            (i_value interaction) (i_formData interaction)
            (if String.eqb action "" then None
             else Some (Js.substring0 200 action))).

End Listeners.

End InteractionRecorder.

(* ================================================================== *)
(** * Element locator: [getCssSelector] *)
(* ================================================================== *)

Module Dom.

(** The element tree of a document.  [className] is the attribute as
    written. *)
Inductive Node : Type :=
| Elem (tagName id className : string) (children : list Node).

Definition tagName (n : Node) : string := let 'Elem t _ _ _ := n in t.
Definition id (n : Node) : string := let 'Elem _ i _ _ := n in i.
Definition className (n : Node) : string := let 'Elem _ _ c _ := n in c.
Definition children (n : Node) : list Node := let 'Elem _ _ _ ch := n in ch.

(** An element is named by the child indices that lead to it, the
    nearest first: [k :: parent] is child [k] of [parent], and [[]] is
    [document.documentElement]. *)
Definition Element := list nat.

Fixpoint descend (n : Node) (path : list nat) : option Node :=
  match path with
  | [] => Some n
  | k :: path' =>
      match nth_error (children n) k with
      | Some c => descend c path'
      | None => None
      end
  end.

Definition node_at (doc : Node) (el : Element) : option Node :=
  descend doc (rev el).

(** [el.parentElement] *)
Definition parentElement (el : Element) : option Element :=
  match el with
  | [] => None
  | _ :: parent => Some parent
  end.

Fixpoint index_where {A : Type} (f : A -> bool) (l : list A) (k : nat)
  : option nat :=
  match l with
  | [] => None
  | a :: l' => if f a then Some k else index_where f l' (S k)
  end.

(** [document.body] *)
Definition body (doc : Node) : option Element :=
  match index_where
          (fun c => String.eqb (Js.toLowerCase (tagName c)) "body")
          (children doc) 0%nat with
  | Some k => Some [k]
  | None => None
  end.

Definition same_element (a b : Element) : bool :=
  if list_eq_dec Nat.eq_dec a b then true else false.

Definition is_space (c : ascii) : bool :=
  let n := nat_of_ascii c in
  ((n =? 32) || ((9 <=? n) && (n <=? 13)))%nat%bool.

(** [s.trim().split(/\s+/).filter(c => c)] *)
Fixpoint tokens_from (cur : string) (s : string) : list string :=
  match s with
  | EmptyString => if String.eqb cur "" then [] else [cur]
  | String c s' =>
      if is_space c
      then (if String.eqb cur "" then tokens_from "" s'
            else cur :: tokens_from "" s')
      else tokens_from (cur ++ String c "") s'
  end.

Definition class_tokens (className : string) : list string :=
  tokens_from "" className.

(** The children of the parent with the tag of [n], and the place of
    child [k] among them, counted from one. *)
Definition same_tag_siblings (parent n : Node) : list Node :=
  filter (fun c => String.eqb (tagName c) (tagName n)) (children parent).

Definition index_among_same_tag (parent n : Node) (k : nat) : nat :=
  S (List.length
       (filter (fun c => String.eqb (tagName c) (tagName n))
               (firstn k (children parent)))).

Definition nth_of_type (doc : Node) (el : Element) (n : Node) : string :=
  match el with
  | [] => ""
  | k :: parent =>
      match node_at doc parent with
      | Some pn =>
          if (1 <? List.length (same_tag_siblings pn n))%nat
          then ":nth-of-type("
               ++ Js.of_Z (Z.of_nat (index_among_same_tag pn n k)) ++ ")"
          else ""
      | None => ""
      end
  end.

(** ** shared-utils.js *)
Module Shared.

(** One pass of the body of the loop. *)
Definition step_selector (doc : Node) (current : Element) (n : Node)
  : string :=
  let selector := Js.toLowerCase (tagName n) in
  let selector :=
    if String.eqb (id n) "" then selector
    else selector ++ "#" ++ id n in
  let selector :=
    match class_tokens (className n) with
    | [] => selector
    | classes => selector ++ "." ++ Js.join "." classes
    end in
  selector ++ nth_of_type doc current n.

(** The loop: [path.unshift(selector); current = current.parentElement]. *)
Fixpoint walk (doc : Node) (current : Element) (path : list string)
  : list string :=
  match node_at doc current with
  | None => path
  | Some n =>
      let path := step_selector doc current n :: path in
      match current with
      | [] => path
      | _ :: parent => walk doc parent path
      end
  end.

Definition getCssSelector (doc : Node) (el : Element) : string :=
  match node_at doc el with
  | None => ""
  | Some _ => Js.join " > " (walk doc el [])
  end.

End Shared.

(** ** The Safari extension's content.js *)
Module Content.

Definition MAX_SELECTOR_DEPTH : nat := 10.

Definition is_alpha (c : ascii) : bool :=
  let n := nat_of_ascii c in
  (((65 <=? n) && (n <=? 90)) || ((97 <=? n) && (n <=? 122)))%nat%bool.

Definition is_ident_char (c : ascii) : bool :=
  let n := nat_of_ascii c in
  (is_alpha c || ((48 <=? n) && (n <=? 57)) || (n =? 95) || (n =? 45))%nat%bool.

Fixpoint all_chars (f : ascii -> bool) (s : string) : bool :=
  match s with
  | EmptyString => true
  | String c s' => (f c && all_chars f s')%bool
  end.

(** [/^[a-zA-Z][a-zA-Z0-9_-]*$/.test(id)] *)
Definition valid_id (id : string) : bool :=
  match id with
  | EmptyString => false
  | String c rest => (is_alpha c && all_chars is_ident_char rest)%bool
  end.

(** The loop, [remaining] being [MAX_SELECTOR_DEPTH - depth]. *)
Fixpoint walk (doc : Node) (remaining : nat) (el : Element)
    (parts : list string) : list string :=
  match remaining with
  | O => parts
  | S remaining' =>
      match node_at doc el with
      | None => parts
      | Some n =>
          if (same_element el []
              || match body doc with
                 | Some b => same_element el b
                 | None => false
                 end)%bool
          then parts
          else if (negb (String.eqb (id n) "") && valid_id (id n))%bool
          then ("#" ++ id n) :: parts
          else
            let selector :=
              Js.toLowerCase (tagName n) ++ nth_of_type doc el n in
            match el with
            | [] => selector :: parts
            | _ :: parent => walk doc remaining' parent (selector :: parts)
            end
      end
  end.

Definition getCssSelector (doc : Node) (element : Element) : string :=
  match node_at doc element with
  | None => ""
  | Some n =>
      let joined := Js.join " > " (walk doc MAX_SELECTOR_DEPTH element []) in
      if negb (String.eqb joined "") then joined
      else if negb (String.eqb (Js.toLowerCase (tagName n)) "")
      then Js.toLowerCase (tagName n)
      else "element"
  end.

End Content.

(** ** [document.querySelector] on id selectors *)





(** [<html><head/><body><button id="submit" class="btn btn-primary">] *)
Definition page : Node :=
  Elem "HTML" "" ""
    [Elem "HEAD" "" "" [];
     Elem "BODY" "" "" [Elem "BUTTON" "submit" "btn btn-primary" []]].

Definition button : Element := [0%nat; 1%nat].

End Dom.

(* ================================================================== *)
(** * Element report: developer-declared context (content.js) *)
(* ================================================================== *)

Module ElementReport.

Inductive Json : Type :=
| JNull
| JBool (b : bool)
| JNumber (n : Z)
| JString (s : string)
| JArray (items : list Json)
| JObject (fields : list (string * Json)).

(** A JavaScript value read from parsed JSON: [None] is [undefined]. *)
Definition truthy (v : option Json) : bool :=
  match v with
  | None | Some JNull => false
  | Some (JBool b) => b
  | Some (JNumber n) => negb (n =? 0)
  | Some (JString s) => negb (String.eqb s "")
  | Some (JArray _) | Some (JObject _) => true
  end.

(** The outcome of a statement that may throw. *)
Inductive Completion (A : Type) : Type :=
| Normal (a : A)
| Throw.
Arguments Normal {A} a.
Arguments Throw {A}.

(** [j.key]: reading a property of [null] throws a TypeError. *)
Definition member (j : Json) (key : string) : Completion (option Json) :=
  match j with
  | JNull => Throw
  | JObject fields => Normal (Js.obj_get key fields)
  | _ => Normal None
  end.

(** [{ name, props, state, file }] as [getComponentInfo] builds it;
    [name] and [file] are strings or [null]. *)
Record ComponentInfo : Type := mkComponent {
  name : Json;
  props : option Sanitizer.Sanitized;
  state : option Sanitizer.Sanitized;
  file : Json
}.

(** The fields of [data] that the developer-context step of
    [extractElementData] reads and writes.  [component] is [None]
    while it is [null] (when [getComponentInfo] threw). *)
Record Data : Type := mkData {
  component : option ComponentInfo;
  developerContext : Json
}.

Section DeveloperContext.

(** [JSON.parse]: [None] when it throws a SyntaxError. *)
Variable JSON_parse : string -> option Json.

(** [if (dc.file) data.component.file = dc.file;] *)
Definition apply_file (dc : Json) (d : Data) : Data :=
  match member dc "file" with
  | Throw => d
  | Normal f =>
      if truthy f then
        match component d, f with
        | Some c, Some fv =>
            mkData (Some (mkComponent (name c) (props c) (state c) fv))
                   (developerContext d)
        | _, _ => d                      (* TypeError, caught *)
        end
      else d
  end.

(** The block guarded by [if (data.dataAttributes['data-ai-context'])],
    with its [try ... catch {}]: an exception ends the block and
    leaves the assignments made before it. *)
Definition apply_developer_context (attr : option string) (d : Data)
  : Data :=
  match attr with
  | None => d
  | Some a =>
      if String.eqb a "" then d
      else
        match JSON_parse a with
        | None => d
        | Some dc =>
            let d1 := mkData (component d) dc in
            match member dc "component" with
            | Throw => d1
            | Normal c =>
                if truthy c then
                  match component d1, c with
                  | Some comp, Some cv =>
                      if negb (truthy (Some (name comp)))
                      then apply_file dc
                             (mkData
                                (Some (mkComponent cv (props comp)
                                         (state comp) (file comp)))
                                dc)
                      else apply_file dc d1
                  | _, _ => d1           (* TypeError, caught *)
                  end
                else apply_file dc d1
            end
        end
  end.

End DeveloperContext.


(** A capture in which introspection found name and file, and a
    developer-declared context. *)
Definition detected : Data :=
  mkData (Some (mkComponent (JString "Button") None None
                  (JString "src/Button.jsx")))
         JNull.

Definition declared : Json :=
  JObject [("component", JString "Widget"); ("file", JString "dev/Widget.tsx")].

End ElementReport.

(* ================================================================== *)
(** * Always-on tap of the Safari content script (content.js) *)
(* ================================================================== *)

Module ContentTap.

Definition MAX_CONSOLE_ENTRIES : Z := 50.
Definition MAX_NETWORK_ENTRIES : Z := 50.

Record LogEntry : Type := mkLog {
  l_type : string;
  l_message : string;
  l_stack : option string;
  l_timestamp : Z;
  l_url : string;
  l_source : option string;
  l_line : option Z
}.

Record NetworkEntry : Type := mkNet {
  n_url : string;
  n_method : string;
  n_status : Z;
  n_statusText : string;
  n_duration : Z;
  n_failed : bool;
  n_type : string;
  n_timestamp : Z
}.

(** [window.__AI_CONTEXT_CONSOLE_LOG__] and
    [window.__AI_CONTEXT_NETWORK_LOG__] *)
Record Tap : Type := mkTap {
  consoleLog : list LogEntry;
  networkLog : list NetworkEntry
}.

Definition cut (n : Z) (s : option string) : option string :=
  match s with
  | Some st => if String.eqb st "" then None else Some (Js.substring0 n st)
  | None => None
  end.

(** What the three writers of the console log append. *)
Inductive ConsoleEvent : Type :=
| Captured (type message : string) (stack : option string)
| WindowError (message : string) (error_stack filename : option string)
    (lineno : option Z)
| Rejection (reason : SessionRecorder.Reason).

Definition entry_of (e : ConsoleEvent) (now : Z) (href : string) : LogEntry :=
  match e with
  | Captured type message stack =>
      (* captureEntry *)
      mkLog type (Js.substring0 2000 message) (cut 3000 stack) now href
            None None
  | WindowError message error_stack filename lineno =>
      mkLog "error"
            (if String.eqb message "" then "Unknown error" else message)
            error_stack now href filename lineno
  | Rejection reason =>
      let '(message, stack) :=
        match reason with
        | SessionRecorder.ErrorReason m st =>
            (if String.eqb m "" then "Unhandled Promise Rejection" else m, st)
        | SessionRecorder.StringReason s =>
            (if String.eqb s "" then "Unhandled Promise Rejection" else s,
             None)
        | _ => ("Unhandled Promise Rejection", None)
        end in
      mkLog "error" ("[Promise] " ++ message) stack now href None None
  end.

(** Each writer pushes its entry and shifts when the log is longer
    than [MAX_CONSOLE_ENTRIES]. *)
Definition console_step (now : Z) (href : string) (t : Tap)
    (e : ConsoleEvent) : Tap :=
  mkTap (SessionRecorder.capped MAX_CONSOLE_ENTRIES (consoleLog t)
           (entry_of e now href))
        (networkLog t).

(** [addNetworkEntry(entry)] *)
Definition addNetworkEntry (entry : NetworkEntry) (t : Tap) : Tap :=
  let entry :=
    if (negb (String.eqb (n_url entry) "")
        && (Js.length (n_url entry) >? 500))%bool
    then mkNet (Js.substring0 500 (n_url entry) ++ "...") (n_method entry)
               (n_status entry) (n_statusText entry) (n_duration entry)
               (n_failed entry) (n_type entry) (n_timestamp entry)
    else entry in
  mkTap (consoleLog t)
        (SessionRecorder.capped MAX_NETWORK_ENTRIES (networkLog t) entry).

(** The handlers of the wrapped [fetch] and the [loadend] listener of
    a wrapped XHR. *)
Definition fetch_then (url method : string) (status : Z)
    (statusText : string) (duration now : Z) : Tap -> Tap :=
  addNetworkEntry
    (mkNet url (Js.toUpperCase method) status statusText duration
           (negb (SessionRecorder.response_ok status)) "fetch" now).

Definition fetch_catch (url method error_message : string)
    (duration now : Z) : Tap -> Tap :=
  addNetworkEntry
    (mkNet url (Js.toUpperCase method) 0
           (if String.eqb error_message "" then "Network Error"
            else error_message)
           duration true "fetch" now).

Definition xhr_loadend (url method : string) (status : Z)
    (statusText : string) (duration now : Z) : Tap -> Tap :=
  addNetworkEntry
    (mkNet url method status statusText duration
           ((status =? 0) || (status >=? 400))%bool "xhr" now).

End ContentTap.

(* ================================================================== *)
(** * Shape of sanitized results *)
(* ================================================================== *)

Module SanitizerShape.
Import Sanitizer.

(** [key.startsWith('__') || key.startsWith('$$')] *)
Definition internal_key (key : string) : bool :=
  (Js.startsWith "__" key || Js.startsWith "$$" key)%bool.

(** No object of the result, at any depth, has an internal key. *)
Fixpoint clean (s : Sanitized) : bool :=
  match s with
  | SPrim _ => true
  | SArray items => forallb clean items
  | SObject fields =>
      forallb (fun kv => (negb (internal_key (fst kv)) && clean (snd kv))%bool)
              fields
  end.

(** Every array of the result has at most [MAX_ARRAY_LENGTH] items
    and every object at most [MAX_OBJECT_KEYS + 1] keys. *)
Fixpoint within_caps (s : Sanitized) : bool :=
  match s with
  | SPrim _ => true
  | SArray items =>
      ((Z.of_nat (List.length items) <=? MAX_ARRAY_LENGTH)
       && forallb within_caps items)%bool
  | SObject fields =>
      ((Z.of_nat (List.length fields) <=? MAX_OBJECT_KEYS + 1)
       && forallb (fun kv => within_caps (snd kv)) fields)%bool
  end.

(** A field whose key is not internal and whose value is clean. *)
Definition clean_field (kv : string * Sanitized) : Prop :=
  internal_key (fst kv) = false /\ clean (snd kv) = true.



(** An object with 21 plain keys, and one with a getter that throws. *)
Definition wide_heap : Heap :=
  fun _ =>
    HObject
      (map (fun k => (k, Data (VBool true)))
         ["k00"; "k01"; "k02"; "k03"; "k04"; "k05"; "k06"; "k07"; "k08";
          "k09"; "k10"; "k11"; "k12"; "k13"; "k14"; "k15"; "k16"; "k17";
          "k18"; "k19"; "k20"]).


End SanitizerShape.

(* ================================================================== *)
(** * Events of a session, by kind *)
(* ================================================================== *)

Module SessionEvents.
Import SessionRecorder.

(** The events that only ask the taps to record something. *)
Definition is_capture (e : Event) : bool :=
  match e with
  | EStart _ _ _ | EStop _ | ESettle _ _ _ => false
  | _ => true
  end.

Definition is_start (e : Event) : bool :=
  match e with
  | EStart _ _ _ => true
  | _ => false
  end.

Definition is_snapshot (e : Event) : bool :=
  match e with
  | ESnapshot _ _ _ _ _ _ => true
  | _ => false
  end.

(** The events whose handlers push without evicting: the [error] and
    [unhandledrejection] listeners and the rejection of a request. *)
Definition pushes_uncapped (e : Event) : bool :=
  match e with
  | EWindowError _ _ _ _ _ | EUnhandledRejection _ _ => true
  | ESettle _ (Rejected _) _ => true
  | _ => false
  end.

(** The entry [__AI_CONTEXT_ADD_INTERACTION__] pushes. *)
Definition stamped (e : InteractionEntry * Z) : InteractionEntry :=
  let '(i, now) := e in
  mkInteraction (i_type i) (i_target i)
    (Some (match i_timestamp i with
           | Some t => if t =? 0 then now else t
           | None => now
           end))
    (i_label i) (i_value i) (i_formData i) (i_action i).

Definition interaction_event (e : InteractionEntry * Z) : Event :=
  let '(i, now) := e in EInteraction i now.

(** The logs of the session are within their caps. *)
Definition interactions_ok (p : Page) : Prop :=
  Z.of_nat (List.length (interactionArrays p (interactions (session p))))
  <= MAX_INTERACTIONS.

Definition console_ok (p : Page) : Prop :=
  Z.of_nat (List.length (consoleArrays p (consoleLog (session p))))
  <= MAX_ENTRIES.

Definition network_ok (p : Page) : Prop :=
  Z.of_nat (List.length (networkArrays p (networkLog (session p))))
  <= MAX_NETWORK.

Definition click : InteractionEntry :=
  mkInteraction "click" "#save" None None None None None.

End SessionEvents.

(* ================================================================== *)
(** * Shape of recorded form data *)
(* ================================================================== *)

Module InteractionShape.
Import InteractionRecorder.

Definition not_password (input : Element) : bool :=
  negb (String.eqb (type input) "password").

Definition formData_entry (kv : string * string) : Prop :=
  Js.length (snd kv) <= 50
  /\ (test_any submit_pattern (fst kv) = true ->
      snd kv = "[masked]" \/ snd kv = "").

End InteractionShape.

(* ================================================================== *)
(** * Element utilities (shared-utils.js, content.js) *)
(* ================================================================== *)

Module ElementUtils.
Import Dom.

(** White space is ASCII white space, as in [Dom.is_space]. *)

Fixpoint drop_spaces (s : string) : string :=
  match s with
  | EmptyString => EmptyString
  | String c s' => if is_space c then drop_spaces s' else s
  end.

Fixpoint rev_onto (acc s : string) : string :=
  match s with
  | EmptyString => acc
  | String c s' => rev_onto (String c acc) s'
  end.

(** [s.trim()] *)
Definition trim (s : string) : string :=
  rev_onto "" (drop_spaces (rev_onto "" (drop_spaces s))).

(** [s.replace(/\s+/g, ' ')]; [in_run] tells that the character before
    was white space. *)
Fixpoint collapse_ws (in_run : bool) (s : string) : string :=
  match s with
  | EmptyString => EmptyString
  | String c s' =>
      if is_space c
      then (if in_run then collapse_ws true s'
            else String " " (collapse_ws true s'))
      else String c (collapse_ws false s')
  end.

Inductive ChildNode : Type :=
| TextNode (textContent : string)
| OtherNode.

(** [getTextContent(el, maxLength)]; [innerText] is [""] when the
    element has none. *)
Definition getTextContent (childNodes : list ChildNode) (innerText : string)
    (maxLength : Z) : string :=
  let textContent :=
    fold_left (fun acc c => match c with
                            | TextNode t => acc ++ t
                            | OtherNode => acc
                            end) childNodes "" in
  let textContent := trim textContent in
  let textContent :=
    if (String.eqb textContent "" && negb (String.eqb innerText ""))%bool
    then trim innerText else textContent in
  if negb (String.eqb textContent "") then
    let textContent :=
      Js.substring0 maxLength (collapse_ws false textContent) in
    if (negb (String.eqb innerText "")
        && (Js.length (trim innerText) >? maxLength))%bool
    then textContent ++ "..." else textContent
  else textContent.

(** [getDataAttributes(el)] of shared-utils.js; [attributes] are the
    name and value pairs of [el.attributes]. *)
Definition getDataAttributes (attributes : list (string * string))
  : list (string * string) :=
  fold_left
    (fun attrs a =>
       if Js.startsWith "data-" (fst a)
       then Js.obj_set (fst a) (snd a) attrs else attrs)
    attributes [].

(** [getDataAttributesFromElement(el)] of content.js *)
Definition getDataAttributesFromElement (attributes : list (string * string))
  : list (string * string) :=
  fold_left
    (fun attrs a =>
       if (Js.startsWith "data-" (fst a)
           && negb (Js.startsWith "data-ccr" (fst a)))%bool
       then Js.obj_set (fst a) (snd a) attrs else attrs)
    attributes [].

(** The attributes whose name passes [keep], as an object. *)
Definition keep_set (keep : string -> bool)
    (attributes : list (string * string)) : list (string * string) :=
  fold_left
    (fun attrs a =>
       if keep (fst a) then Js.obj_set (fst a) (snd a) attrs else attrs)
    attributes [].

End ElementUtils.

(* ================================================================== *)
(** * Labels and targets of interactions *)
(* ================================================================== *)

Module Labels.

(** What [getElementLabel] reads from an element: the [aria-label]
    attribute ([None] when absent), [title],
    [innerText || textContent || ''], [placeholder] and [alt] (empty
    when the element has none). *)
Record LabelSource : Type := mkLabelSource {
  ariaLabel : option string;
  title : string;
  text : string;
  placeholder : string;
  alt : string
}.

(** [getElementLabel(element)] of interaction-recorder.js *)
Definition getElementLabel (element : LabelSource) : option string :=
  let ariaLabel :=
    match ariaLabel element with Some a => a | None => "" end in
  if negb (String.eqb ariaLabel "") then Some (Js.substring0 50 ariaLabel)
  else if negb (String.eqb (title element) "")
  then Some (Js.substring0 50 (title element))
  else
    let text := ElementUtils.trim (text element) in
    if (negb (String.eqb text "") && (Js.length text <? 50))%bool
    then Some text
    else if (negb (String.eqb text "") && (Js.length text >=? 50))%bool
    then Some (Js.substring0 47 text ++ "...")
    else if negb (String.eqb (placeholder element) "")
    then Some (Js.substring0 50 (placeholder element))
    else if negb (String.eqb (alt element) "")
    then Some (Js.substring0 50 (alt element))
    else None.

(** What [captureInteraction] of content.js reads from
    [event.target]. *)
Record Target : Type := mkTarget {
  t_tagName : string;
  t_id : string;
  t_className : option string;      (* [None] when it is not a string *)
  t_value : string
}.

Record Captured : Type := mkCaptured {
  k_type : string;
  k_target : string;
  k_timestamp : Z;
  k_value : option string
}.

(** The entry [captureInteraction(type, event)] of content.js
    pushes. *)
Definition captureInteraction (type : string) (target : option Target)
    (now : Z) : Captured :=
  let selector :=
    match target with
    | Some el =>
        if negb (String.eqb (t_tagName el) "") then
          Js.toLowerCase (t_tagName el)
          ++ (if negb (String.eqb (t_id el) "") then "#" ++ t_id el else "")
          ++ (match t_className el with
              | Some c =>
                  if negb (String.eqb c "")
                  then "." ++ Js.join "."
                                (firstn 2 (Dom.class_tokens c))
                  else ""
              | None => ""
              end)
        else ""
    | None => ""
    end in
  mkCaptured type (Js.substring0 100 selector) now
    (match target with
     | Some el =>
         if String.eqb type "input"
         then Some (Js.substring0 50 (t_value el)
                    ++ (if Js.length (t_value el) >? 50 then "..." else ""))
         else None
     | None => None
     end).

End Labels.

(* ================================================================== *)
(** * Properties of the bounded sanitizer *)
(* ================================================================== *)

Module SanitizerFacts.
Import Sanitizer.

Lemma fold_left_ext_eq {A B : Type} (f g : A -> B -> A) (l : list B) :
  (forall a b, f a b = g a b) ->
  forall a, fold_left f l a = fold_left g l a.
Proof.
  intros Hfg; induction l as [|b l IH]; intros a; simpl; [reflexivity|].
  now rewrite Hfg, IH.
Qed.

Section WithHeap.
Variable h : Heap.

Lemma forEach_key_ext f g obj d m result key :
  (forall v, f v d m = g v d m) ->
  forEach_key h f obj d m result key = forEach_key h g obj d m result key.
Proof.
  intros Hfg; unfold forEach_key.
  destruct (_ || _)%bool; [reflexivity|].
  destruct (get h obj key); [now rewrite Hfg | reflexivity].
Qed.

Lemma sanitizeObject_with_ext f g obj d m :
  (forall v, f v d m = g v d m) ->
  sanitizeObject_with h f obj d m = sanitizeObject_with h g obj d m.
Proof.
  intros Hfg; unfold sanitizeObject_with.
  destruct (d <=? 0); [reflexivity|].
  destruct (_ || _)%bool; [reflexivity|].
  destruct (_ >? _); f_equal; apply fold_left_ext_eq;
    intros; now apply forEach_key_ext.
Qed.

Lemma sanitizeValue_body_ext f g v d m :
  (forall v', f v' (d - 1) m = g v' (d - 1) m) ->
  sanitizeValue_body h f v d m = sanitizeValue_body h g v d m.
Proof.
  intros Hfg; unfold sanitizeValue_body.
  destruct (d <=? 0); [reflexivity|].
  destruct v; try reflexivity.
  destruct (h a).
  - destruct (_ >? _); [reflexivity|].
    f_equal; apply map_ext; intros; apply Hfg.
  - now apply sanitizeObject_with_ext.
Qed.

(** Unrolling the recursion more than [depth] times changes nothing. *)
Lemma sanitizeValue_rec_fuel :
  forall n1 n2 v d m,
    (Z.to_nat d <= n1)%nat -> (Z.to_nat d <= n2)%nat ->
    sanitizeValue_rec h n1 v d m = sanitizeValue_rec h n2 v d m.
Proof.
  assert (base : forall n v d m, d <= 0 ->
            sanitizeValue_rec h n v d m = str "[max depth]").
  { intros [|n] v d m Hd; simpl; [reflexivity|].
    unfold sanitizeValue_body.
    destruct (d <=? 0) eqn:E; [reflexivity|].
    apply Z.leb_gt in E; lia. }
  induction n1 as [|n1 IH]; intros n2 v d m H1 H2.
  - rewrite (base n2) by lia. reflexivity.
  - destruct n2 as [|n2].
    + rewrite (base (S n1)) by lia. reflexivity.
    + destruct (Z_le_gt_dec d 0) as [Hd|Hd].
      * now rewrite !base by assumption.
      * simpl. apply sanitizeValue_body_ext.
        intros v'; apply IH; lia.
Qed.

(** [sanitizeValue] satisfies the recursive equation of the source:
    it is its own body applied to itself. *)
Lemma sanitizeValue_eq value depth maxStringLength :
  sanitizeValue h value depth maxStringLength
  = sanitizeValue_body h (sanitizeValue h) value depth maxStringLength.
Proof.
  unfold sanitizeValue at 1; simpl.
  apply sanitizeValue_body_ext; intros v'.
  unfold sanitizeValue. apply sanitizeValue_rec_fuel; lia.
Qed.

(** On a plain object [sanitizeValue] hands over to [sanitizeObject]
    with one level less. *)
Lemma sanitizeValue_object a props depth maxStringLength :
  0 < depth -> h a = HObject props ->
  sanitizeValue h (VRef a) depth maxStringLength
  = sanitizeObject h (VRef a) (depth - 1) maxStringLength.
Proof.
  intros Hd Ha. rewrite sanitizeValue_eq. unfold sanitizeValue_body.
  destruct (depth <=? 0) eqn:E; [apply Z.leb_le in E; lia|].
  now rewrite Ha.
Qed.

Lemma sanitizeObject_eq obj depth maxStringLength :
  sanitizeObject h obj depth maxStringLength
  = sanitizeObject_with h (sanitizeValue h) obj depth maxStringLength.
Proof. reflexivity. Qed.

End WithHeap.


(** ** Depth bound and JSON safety *)

Lemma str_bounded k s : bounded k (str s).
Proof. split; simpl; [reflexivity | lia]. Qed.

Lemma bounded_prim k v : json_primitive v = true -> bounded k (SPrim v).
Proof. intros Hv; split; simpl; [assumption | lia]. Qed.

Lemma SArray_bounded k items :
  Forall (bounded k) items -> bounded (S k) (SArray items).
Proof.
  intros Hall; split; simpl.
  - apply forallb_forall; intros x Hx.
    rewrite Forall_forall in Hall. now apply Hall.
  - apply le_n_S, list_max_le, Forall_map.
    eapply Forall_impl; [|exact Hall]. now intros x [_ Hx].
Qed.

Lemma SObject_bounded k fields :
  Forall (fun kv => bounded k (snd kv)) fields ->
  bounded (S k) (SObject fields).
Proof.
  intros Hall; split; simpl.
  - apply forallb_forall; intros x Hx.
    rewrite Forall_forall in Hall. now apply Hall.
  - apply le_n_S, list_max_le, Forall_map.
    eapply Forall_impl; [|exact Hall]. now intros x [_ Hx].
Qed.

Lemma obj_set_Forall {A : Type} (P : A -> Prop) k v (o : list (string * A)) :
  Forall (fun kv => P (snd kv)) o -> P v ->
  Forall (fun kv => P (snd kv)) (Js.obj_set k v o).
Proof.
  induction o as [|[k' v'] o IH]; simpl; intros Ho Hv.
  - now constructor.
  - inversion Ho; subst.
    destruct (String.eqb k' k); constructor; auto.
Qed.

Section Bounds.
Variable h : Heap.

Lemma fold_forEach_Forall (P : Sanitized -> Prop) f obj d m :
  (forall v, P (f v d m)) -> P (str "[Error reading property]") ->
  forall keys result,
    Forall (fun kv => P (snd kv)) result ->
    Forall (fun kv => P (snd kv))
           (fold_left (forEach_key h f obj d m) keys result).
Proof.
  intros Hf Herr; induction keys as [|key keys IH]; intros result Hres;
    simpl; [assumption|].
  apply IH. unfold forEach_key.
  destruct (_ || _)%bool; [assumption|].
  destruct (get h obj key); now apply obj_set_Forall.
Qed.

Lemma sanitizeObject_with_bounded f (a : Addr) d m :
  (forall v, bounded (Z.to_nat d) (f v d m)) ->
  bounded (S (Z.to_nat d)) (sanitizeObject_with h f (VRef a) d m).
Proof.
  intros Hf; unfold sanitizeObject_with.
  destruct (d <=? 0); [apply str_bounded|].
  simpl (falsy _ || _)%bool. cbv iota.
  destruct (_ >? _); apply SObject_bounded;
    apply fold_forEach_Forall; auto using str_bounded.
  simpl. repeat constructor; simpl; lia.
Qed.

Lemma sanitizeValue_rec_bounded :
  forall n v d m, bounded (Z.to_nat d) (sanitizeValue_rec h n v d m).
Proof.
  induction n as [|n IH]; intros v d m; simpl; [apply str_bounded|].
  unfold sanitizeValue_body.
  destruct (d <=? 0) eqn:Hd; [apply str_bounded|].
  apply Z.leb_gt in Hd.
  assert (Hk : Z.to_nat d = S (Z.to_nat (d - 1))) by lia.
  destruct v; try apply str_bounded; try (now apply bounded_prim).
  - destruct (_ >? _); [apply str_bounded | now apply bounded_prim].
  - destruct (h a).
    + destruct (_ >? _); [apply str_bounded|].
      rewrite Hk. apply SArray_bounded, Forall_map, Forall_forall.
      intros; apply IH.
    + rewrite Hk. apply sanitizeObject_with_bounded. intros; apply IH.
Qed.

End Bounds.


(** ** The self-referential example *)

(** C2, as stated, fails for [sanitizeValue]: at depth 3 the object
    [a] with [a.self = a] is not sanitized to three nested levels. *)
Lemma sanitizeValue_self_not_three_levels :
  sanitizeValue self_heap self_a 3 MAX_STRING_LENGTH <> three_levels.
Proof. vm_compute. discriminate. Qed.

(** C2, amended.  [sanitizeValue(a, 3)] spends its first level on the
    hand-over to [sanitizeObject(a, 2)] and returns two nested objects
    around the placeholder; three nested objects are what
    [sanitizeObject(a, 3)] returns. *)
Theorem sanitize_self_reference :
  sanitizeValue self_heap self_a MAX_OBJECT_DEPTH MAX_STRING_LENGTH
  = two_levels
  /\ sanitizeObject self_heap self_a MAX_OBJECT_DEPTH MAX_STRING_LENGTH
     = three_levels.
Proof. split; vm_compute; reflexivity. Qed.


(** ** Key cap of [sanitizeObject] *)

Lemma obj_set_length {A : Type} k (v : A) o :
  (List.length (Js.obj_set k v o) <= S (List.length o))%nat.
Proof.
  induction o as [|[k' v'] o IH]; simpl; [lia|].
  destruct (String.eqb k' k); simpl; lia.
Qed.

Lemma obj_set_data_keys k v o :
  (List.length (data_keys (Js.obj_set k v o))
   <= S (List.length (data_keys o)))%nat.
Proof.
  unfold data_keys.
  induction o as [|[k' v'] o IH]; simpl.
  - destruct (negb _); simpl; lia.
  - destruct (String.eqb k' k); simpl.
    + destruct (negb _); simpl; lia.
    + destruct (negb _); simpl; lia.
Qed.

Lemma obj_get_set_other {A : Type} k k' (v : A) o :
  k <> k' -> Js.obj_get k (Js.obj_set k' v o) = Js.obj_get k o.
Proof.
  intros Hne; induction o as [|[k0 v0] o IH]; simpl.
  - destruct (String.eqb_spec k' k); [congruence | reflexivity].
  - destruct (String.eqb_spec k0 k'); simpl.
    + subst k0. destruct (String.eqb_spec k' k); [congruence | reflexivity].
    + destruct (String.eqb_spec k0 k); [reflexivity | exact IH].
Qed.

Section KeyCap.
Variable h : Heap.
Variable f : Value -> Z -> Z -> Sanitized.

Lemma fold_forEach_length obj d m keys :
  forall result,
    (List.length (fold_left (forEach_key h f obj d m) keys result)
     <= List.length result + List.length keys)%nat.
Proof.
  induction keys as [|key keys IH]; intros result; simpl; [lia|].
  eapply Nat.le_trans; [apply IH|].
  unfold forEach_key.
  destruct (_ || _)%bool; [lia|].
  destruct (get h obj key);
    match goal with |- context [Js.obj_set ?k ?v ?o] =>
      pose proof (obj_set_length k v o) end; lia.
Qed.

Lemma fold_forEach_data_keys obj d m keys :
  forall result,
    (List.length (data_keys (fold_left (forEach_key h f obj d m) keys result))
     <= List.length (data_keys result) + List.length keys)%nat.
Proof.
  induction keys as [|key keys IH]; intros result; simpl; [lia|].
  eapply Nat.le_trans; [apply IH|].
  unfold forEach_key.
  destruct (_ || _)%bool; [lia|].
  destruct (get h obj key);
    match goal with |- context [Js.obj_set ?k ?v ?o] =>
      pose proof (obj_set_data_keys k v o) end; lia.
Qed.

Lemma fold_forEach_get_other obj d m k keys :
  ~ In k keys ->
  forall result,
    Js.obj_get k (fold_left (forEach_key h f obj d m) keys result)
    = Js.obj_get k result.
Proof.
  induction keys as [|key keys IH]; intros Hnot result; simpl;
    [reflexivity|].
  rewrite IH by (intros Hin; apply Hnot; now right).
  assert (Hne : k <> key) by (intros ->; apply Hnot; now left).
  unfold forEach_key.
  destruct (_ || _)%bool; [reflexivity|].
  destruct (get h obj key); now apply obj_get_set_other.
Qed.

(** What [sanitizeObject] guarantees about the number of keys: at
    most [MAX_OBJECT_KEYS] data keys and at most one key more; and
    the counter is in place whenever none of the first
    [MAX_OBJECT_KEYS] source keys is itself spelled ["..."]. *)
Lemma sanitizeObject_with_key_cap obj d m :
  0 < d -> falsy obj = false -> typeof obj = "object" ->
  exists fields,
    sanitizeObject_with h f obj d m = SObject fields
    /\ Z.of_nat (List.length (data_keys fields)) <= MAX_OBJECT_KEYS
    /\ Z.of_nat (List.length fields) <= MAX_OBJECT_KEYS + 1
    /\ (Z.of_nat (List.length (Object_keys h obj)) > MAX_OBJECT_KEYS ->
        ~ In "..." (firstn (Z.to_nat MAX_OBJECT_KEYS) (Object_keys h obj)) ->
        Js.obj_get "..." fields
        = Some (counter (Z.of_nat (List.length (Object_keys h obj))
                         - MAX_OBJECT_KEYS))).
Proof.
  intros Hd Hfalsy Htype. unfold sanitizeObject_with.
  destruct (d <=? 0) eqn:E; [apply Z.leb_le in E; lia|].
  rewrite Hfalsy, Htype. simpl (false || _)%bool. cbv iota.
  set (keys := Object_keys h obj).
  destruct (Z.of_nat (List.length keys) >? MAX_OBJECT_KEYS) eqn:Hk.
  - eexists; split; [reflexivity|].
    pose proof (firstn_le_length (Z.to_nat MAX_OBJECT_KEYS) keys) as Hlen.
    set (ks := firstn (Z.to_nat MAX_OBJECT_KEYS) keys) in *.
    set (r0 := Js.obj_set "..." _ []).
    assert (Hr0 : List.length r0 = 1%nat) by reflexivity.
    assert (Hd0 : List.length (data_keys r0) = 0%nat) by reflexivity.
    split; [|split].
    + pose proof (fold_forEach_data_keys obj d m ks r0) as Hb.
      unfold MAX_OBJECT_KEYS in *. lia.
    + pose proof (fold_forEach_length obj d m ks r0) as Hb.
      unfold MAX_OBJECT_KEYS in *. lia.
    + intros _ Hnot. rewrite fold_forEach_get_other by exact Hnot.
      reflexivity.
  - eexists; split; [reflexivity|].
    assert (Hle : Z.of_nat (List.length keys) <= MAX_OBJECT_KEYS).
    { destruct (Z.gtb_spec (Z.of_nat (List.length keys)) MAX_OBJECT_KEYS);
        [discriminate | lia]. }
    split; [|split].
    + pose proof (fold_forEach_data_keys obj d m keys []) as Hb.
      simpl in Hb. lia.
    + pose proof (fold_forEach_length obj d m keys []) as Hb.
      simpl in Hb. lia.
    + intros Hgt; lia.
Qed.

End KeyCap.

(** C5.  The cap on the keys holds for every object, but the counter
    is lost when one of the first 20 keys of the object is itself
    spelled ["..."]: the object has 21 keys, one is omitted, and the
    ["..."] key of the result holds the sanitized property, not the
    count. *)
Theorem sanitizeObject_counter_overwritten :
  Z.of_nat (List.length (Object_keys dots_heap (VRef 0%nat))) = 21
  /\ exists fields,
       sanitizeObject dots_heap (VRef 0%nat) MAX_OBJECT_DEPTH
         MAX_STRING_LENGTH = SObject fields
       /\ Js.obj_get "..." fields = Some (SPrim (VNumber 7))
       /\ Js.obj_get "..." fields <> Some (counter (21 - MAX_OBJECT_KEYS)).
Proof.
  split; [reflexivity|].
  eexists; split; [vm_compute; reflexivity|].
  split; [reflexivity | discriminate].
Qed.

(** ** Idempotence on strings *)

Lemma substring0_length n s :
  (n <= String.length s)%nat ->
  String.length (String.substring 0 n s) = n.
Proof.
  revert s; induction n as [|n IH]; intros s Hn.
  - destruct s; reflexivity.
  - destruct s as [|c s]; simpl in *; [lia|].
    rewrite IH by lia. reflexivity.
Qed.

Lemma string_length_app s t :
  String.length (s ++ t) = (String.length s + String.length t)%nat.
Proof. induction s as [|c s IH]; simpl; [reflexivity | now rewrite IH]. Qed.

Lemma substring0_app n s t :
  String.length s = n -> String.substring 0 n (s ++ t) = s.
Proof.
  revert s; induction n as [|n IH]; intros s Hs.
  - destruct s; [|discriminate]. simpl. destruct t; reflexivity.
  - destruct s as [|c s]; [discriminate|]. simpl.
    rewrite IH; [reflexivity | now inversion Hs].
Qed.

(** C10.  Sanitizing a string twice gives what sanitizing it once
    gives, for every string, at the default depth and string cap (and
    at every other depth and cap). *)
Theorem sanitizeValue_string_idempotent :
  forall (h : Heap) (s : string) (depth maxStringLength : Z),
  exists t : string,
    sanitizeValue h (VString s) depth maxStringLength = SPrim (VString t)
    /\ sanitizeValue h (VString t) depth maxStringLength
       = SPrim (VString t).
Proof.
  intros h s depth m.
  rewrite sanitizeValue_eq. unfold sanitizeValue_body.
  destruct (depth <=? 0) eqn:Hd.
  - exists "[max depth]". split; [reflexivity|].
    rewrite sanitizeValue_eq. unfold sanitizeValue_body.
    now rewrite Hd.
  - destruct (Js.length s >? m) eqn:Hlen.
    + exists (Js.substring0 m s ++ "..."). split; [reflexivity|].
      rewrite sanitizeValue_eq. unfold sanitizeValue_body. rewrite Hd.
      assert (Hgt : Js.length s > m).
      { destruct (Z.gtb_spec (Js.length s) m); [lia | discriminate]. }
      unfold Js.length in Hgt.
      assert (Hsub : String.length (Js.substring0 m s) = Z.to_nat m).
      { unfold Js.substring0. apply substring0_length. lia. }
      assert (Hlen2 : (Js.length (Js.substring0 m s ++ "...") >? m) = true).
      { unfold Js.length. rewrite string_length_app, Hsub. simpl.
        destruct (Z.gtb_spec (Z.of_nat (Z.to_nat m + 3)) m);
          [reflexivity | lia]. }
      rewrite Hlen2. unfold str. do 2 f_equal.
      unfold Js.substring0 at 1. now rewrite substring0_app.
    + exists s. split; [reflexivity|].
      rewrite sanitizeValue_eq. unfold sanitizeValue_body.
      now rewrite Hd, Hlen.
Qed.

End SanitizerFacts.

(* ================================================================== *)
(** * Properties of the session recorder *)
(* ================================================================== *)

Module RingBuffer.
Import SessionRecorder.

Lemma tl_skipn {A : Type} (k : nat) (l : list A) :
  tl (skipn k l) = skipn (S k) l.
Proof.
  revert l; induction k as [|k IH]; intros l.
  - destruct l; reflexivity.
  - destruct l as [|a l]; [reflexivity|].
    change (tl (skipn k l) = skipn (S k) l). apply IH.
Qed.

Lemma skipn_snoc {A : Type} (k : nat) (l : list A) (x : A) :
  (k <= List.length l)%nat ->
  (skipn k l ++ [x] = skipn k (l ++ [x]))%list.
Proof.
  intros Hk. rewrite skipn_app.
  replace (k - List.length l)%nat with 0%nat by lia. reflexivity.
Qed.

(** After any number of capped appends to a log within its cap, the
    log is the last [cap] entries of everything appended. *)
Lemma fold_capped {A : Type} (cap : nat) (xs l : list A) :
  (List.length l <= cap)%nat ->
  fold_left (capped (Z.of_nat cap)) xs l
  = skipn (List.length (l ++ xs)%list - cap) (l ++ xs)%list.
Proof.
  intros Hl. induction xs as [|x xs IH] using rev_ind.
  - simpl. rewrite app_nil_r.
    replace (List.length l - cap)%nat with 0%nat by lia. reflexivity.
  - rewrite fold_left_app; simpl. rewrite IH. unfold capped.
    set (L := (l ++ xs)%list).
    assert (Hk : (List.length L - cap <= List.length L)%nat) by lia.
    rewrite skipn_snoc by exact Hk.
    replace (l ++ xs ++ [x])%list with (L ++ [x])%list
      by (unfold L; now rewrite app_assoc).
    pose proof (length_skipn (List.length L - cap) (L ++ [x])%list) as Hlen.
    rewrite length_app in Hlen; simpl in Hlen.
    rewrite length_app; simpl.
    destruct (Z.gtb_spec
                (Z.of_nat (List.length
                             (skipn (List.length L - cap) (L ++ [x])%list)))
                (Z.of_nat cap)) as [Hgt|Hle].
    + rewrite tl_skipn. f_equal. lia.
    + f_equal. lia.
Qed.

(** Ring-buffer bound: [N > cap] capped appends to an empty log leave
    [cap] entries, the first of which is the [(N-cap+1)]-th one
    appended. *)
Lemma capped_ring {A : Type} (cap : nat) (xs : list A) (d : A) :
  (0 < cap)%nat -> (List.length xs > cap)%nat ->
  let log := fold_left (capped (Z.of_nat cap)) xs [] in
  List.length log = cap
  /\ hd d log = nth (List.length xs - cap) xs d.
Proof.
  intros Hcap HN; cbv zeta.
  rewrite fold_capped by (simpl; lia). simpl.
  split.
  - rewrite length_skipn. lia.
  - rewrite <- (Nat.add_0_r (List.length xs - cap)) at 2.
    rewrite <- nth_skipn. destruct (skipn _ xs); reflexivity.
Qed.

(** In the always-on tap of the Safari content script all three
    writers of the console log evict: whatever the writers, more than
    [MAX_CONSOLE_ENTRIES] appends leave exactly that many entries, the
    oldest kept one first. *)
Lemma content_console_ring now href (events : list ContentTap.ConsoleEvent) :
  (List.length events > Z.to_nat ContentTap.MAX_CONSOLE_ENTRIES)%nat ->
  let log := ContentTap.consoleLog
               (fold_left (ContentTap.console_step now href) events
                  (ContentTap.mkTap [] [])) in
  let appended := map (fun e => ContentTap.entry_of e now href) events in
  Z.of_nat (List.length log) = ContentTap.MAX_CONSOLE_ENTRIES
  /\ forall d,
       hd d log
       = nth (List.length events - Z.to_nat ContentTap.MAX_CONSOLE_ENTRIES)
           appended d.
Proof.
  intros HN; cbv zeta.
  assert (Hfold : forall evs t,
             ContentTap.consoleLog
               (fold_left (ContentTap.console_step now href) evs t)
             = fold_left (capped ContentTap.MAX_CONSOLE_ENTRIES)
                 (map (fun e => ContentTap.entry_of e now href) evs)
                 (ContentTap.consoleLog t)).
  { induction evs as [|e evs IH]; intros t; simpl; [reflexivity|].
    now rewrite IH. }
  rewrite Hfold; simpl ContentTap.consoleLog.
  change ContentTap.MAX_CONSOLE_ENTRIES
    with (Z.of_nat (Z.to_nat ContentTap.MAX_CONSOLE_ENTRIES)) at 1 3.
  split.
  - destruct (capped_ring (Z.to_nat ContentTap.MAX_CONSOLE_ENTRIES)
                (map (fun e => ContentTap.entry_of e now href) events)
                (ContentTap.entry_of (ContentTap.Captured "" "" None) now href))
      as [Hlen _]; [unfold ContentTap.MAX_CONSOLE_ENTRIES; lia
                   | now rewrite length_map |].
    now rewrite Hlen.
  - intros d.
    destruct (capped_ring (Z.to_nat ContentTap.MAX_CONSOLE_ENTRIES)
                (map (fun e => ContentTap.entry_of e now href) events) d)
      as [_ Hhd]; [unfold ContentTap.MAX_CONSOLE_ENTRIES; lia
                  | now rewrite length_map |].
    now rewrite Hhd, length_map.
Qed.

End RingBuffer.

Module SessionFacts.
Import SessionRecorder RingBuffer.

Lemma assign_same {A : Type} r (l : list A) st : assign r l st r = l.
Proof. unfold assign. now rewrite Nat.eqb_refl. Qed.


Lemma push_capped_same {A : Type} cap r (x : A) st :
  push_capped cap r x st r = capped cap (st r) x.
Proof.
  unfold push_capped, capped, shift, push.
  rewrite !assign_same.
  destruct (_ >? _); now rewrite !assign_same.
Qed.



(** ** The console path of the session tap keeps the ring-buffer bound *)

Lemma captureConsole_recording type message stack now p :
  isRecording (session p) = true ->
  captureConsole type message stack now p
  = with_console
      (push_capped MAX_ENTRIES (consoleLog (session p))
         (console_entry (type, message, stack, now)) (consoleArrays p)) p.
Proof. intros Hrec; unfold captureConsole. now rewrite Hrec. Qed.

Lemma run_console_events calls :
  forall p,
    isRecording (session p) = true ->
    session (run (map console_event calls) p) = session p
    /\ consoleArrays (run (map console_event calls) p)
         (consoleLog (session p))
       = fold_left (capped MAX_ENTRIES) (map console_entry calls)
           (consoleArrays p (consoleLog (session p))).
Proof.
  induction calls as [|[[[type message] stack] now] calls IH];
    intros p Hrec; [split; reflexivity|].
  change (run (map console_event ((type, message, stack, now) :: calls)) p)
    with (run (map console_event calls)
            (captureConsole type message stack now p)).
  rewrite captureConsole_recording by exact Hrec.
  set (q := with_console _ p).
  destruct (IH q Hrec) as [Hs Hc].
  change (session q) with (session p) in Hs, Hc.
  split; [exact Hs|].
  rewrite Hc. unfold q; simpl consoleArrays.
  now rewrite push_capped_same.
Qed.

(** Through [captureConsole] alone the console log of a session obeys
    the ring-buffer bound. *)
Lemma captureConsole_ring calls p :
  isRecording (session p) = true ->
  consoleArrays p (consoleLog (session p)) = [] ->
  (List.length calls > Z.to_nat MAX_ENTRIES)%nat ->
  let log := consoleArrays (run (map console_event calls) p)
               (consoleLog (session p)) in
  Z.of_nat (List.length log) = MAX_ENTRIES
  /\ hd (console_entry ("", "", None, 0)) log
     = nth (List.length calls - Z.to_nat MAX_ENTRIES)
         (map console_entry calls) (console_entry ("", "", None, 0)).
Proof.
  intros Hrec Hempty HN; cbv zeta.
  destruct (run_console_events calls p Hrec) as [_ Hc].
  rewrite Hc, Hempty.
  change MAX_ENTRIES with (Z.of_nat (Z.to_nat MAX_ENTRIES)) at 1 3.
  destruct (capped_ring (Z.to_nat MAX_ENTRIES) (map console_entry calls)
              (console_entry ("", "", None, 0))) as [Hlen Hhd].
  - unfold MAX_ENTRIES; lia.
  - now rewrite length_map.
  - rewrite Hlen, Hhd, length_map. split; [reflexivity|reflexivity].
Qed.

(** C3.  The [error] listener of the session tap pushes without
    evicting: a session that takes 201 uncaught errors holds 202
    console entries (the start message and the errors), more than the
    cap of 200. *)
Theorem window_error_log_exceeds_cap :
  let p := run (repeat (EWindowError "boom" None None None 0) 201)
             (start None None 0 injected) in
  Z.of_nat (List.length (consoleArrays p (consoleLog (session p)))) = 202
  /\ 202 > MAX_ENTRIES.
Proof. split; [vm_compute; reflexivity | reflexivity]. Qed.


(** ** What can still change after [stop] *)

Section AfterStop.

(** The object a call of [stop] returned. *)
Variable r : StoppedSession.



Lemma settle_session id o now p :
  session (settle id o now p) = session p
  /\ next (settle id o now p) = next p
  /\ consoleArrays (settle id o now p) = consoleArrays p
  /\ interactionArrays (settle id o now p) = interactionArrays p
  /\ snapshotArrays (settle id o now p) = snapshotArrays p.
Proof.
  unfold settle. destruct (take_pending id (inflight p)) as [[c rest]|];
    [|now repeat split].
  destruct c, o; now repeat split.
Qed.







End AfterStop.





(** ** The [failed] flag *)

Lemma capped_In {A : Type} cap (l : list A) x e :
  In e (capped cap l x) -> In e l \/ e = x.
Proof.
  unfold capped; intros Hin.
  assert (Hall : In e (l ++ [x])%list).
  { destruct (_ >? _); [|exact Hin].
    destruct (l ++ [x])%list; [exact Hin | now right]. }
  apply in_app_or in Hall. destruct Hall as [H|[H|[]]]; auto.
Qed.

(** The entry the [then] handler of a fetch records. *)
Lemma fetch_then_failed c status now p e :
  In e (networkArrays (fetch_then c status now p) (networkLog (session p))) ->
  ~ In e (networkArrays p (networkLog (session p))) ->
  n_status e = status /\ n_failed e = negb (response_ok status).
Proof.
  intros Hin Hold. unfold fetch_then in Hin; simpl in Hin.
  rewrite push_capped_same in Hin. apply capped_In in Hin.
  destruct Hin as [Hin| ->]; [contradiction | now split].
Qed.

(** The entry the [loadend] listener of an XHR records. *)
Lemma xhr_loadend_failed c status text now p e :
  In e (networkArrays (xhr_loadend c status text now p)
          (networkLog (session p))) ->
  ~ In e (networkArrays p (networkLog (session p))) ->
  n_status e = status
  /\ n_failed e = ((status =? 0) || (status >=? 400))%bool.
Proof.
  intros Hin Hold. unfold xhr_loadend in Hin; simpl in Hin.
  rewrite push_capped_same in Hin. apply capped_In in Hin.
  destruct Hin as [Hin| ->]; [contradiction | now split].
Qed.

Lemma xhr_failed_iff status :
  ((status =? 0) || (status >=? 400))%bool = true
  <-> status = 0 \/ status >= 400.
Proof.
  rewrite orb_true_iff, Z.eqb_eq, Z.geb_le. lia.
Qed.

(** C7.  On the fetch path the flag is [!response.ok]: a response
    with status 304 is recorded as failed, although the request had no
    transport error and its status is neither 0 nor 400 or more; the
    XHR path records the same status as not failed. *)
Theorem fetch_not_modified_marked_failed :
  let started := start (Some "s1") None 1000 injected in
  let by_fetch :=
    run [EFetch "/api/items" "GET" None 1010;
         ESettle 0 (Responded 304 None) 1030] started in
  let by_xhr :=
    run [EXhrSend (Some "/api/items") (Some "GET") None 1010;
         ESettle 0 (Responded 304 None) 1030] started in
  map (fun e => (n_status e, n_failed e))
      (networkArrays by_fetch (networkLog (session by_fetch)))
  = [(304, true)]
  /\ map (fun e => (n_status e, n_failed e))
         (networkArrays by_xhr (networkLog (session by_xhr)))
     = [(304, false)]
  /\ ~ (304 = 0 \/ 304 >= 400).
Proof.
  vm_compute. repeat split; try reflexivity.
  intros [H|H]; [discriminate | now apply H].
Qed.

End SessionFacts.

(* ================================================================== *)
(** * Properties of the interaction recorder *)
(* ================================================================== *)

Module InteractionFacts.
Import SessionRecorder InteractionRecorder.

Lemma append_dots_nonempty s : String.eqb (s ++ "...") "" = false.
Proof. destruct s; reflexivity. Qed.

(** The [input] listener masks every non-empty value of a field whose
    name or id matches its pattern, and still records the
    interaction. *)
Lemma input_capture_masks getSelector getElementLabel target now :
  String.eqb (type target) "password" = false ->
  (test_any input_pattern (name target)
   || test_any input_pattern (id target))%bool = true ->
  value target <> "" ->
  exists e,
    input_capture getSelector getElementLabel target now = Some e
    /\ i_type e = "input"
    /\ i_value e = Some "[masked]".
Proof.
  intros Hpw Hsens Hval. unfold input_capture. rewrite Hpw, Hsens.
  eexists; split; [reflexivity|]. split; [reflexivity|]. simpl.
  destruct (Js.length (value target) >? 100).
  - now rewrite append_dots_nonempty.
  - destruct (String.eqb_spec (value target) ""); [contradiction|reflexivity].
Qed.

(** An input event on an element named ["email"] with value
    ["a@b.com"]. *)
Example input_email_masked getSelector getElementLabel now :
  option_map i_value
    (input_capture getSelector getElementLabel
       (mkElement "INPUT" "text" "email" "" "a@b.com") now)
  = Some (Some "[masked]").
Proof. reflexivity. Qed.

(** C8.  The [submit] listener tests the field name against a
    shorter pattern than the [input] listener (no [cvv], no [pin]) and
    never looks at the id: a form field named ["cvv"] matches the
    sensitive pattern, its value is masked by the [input] listener,
    and the [submit] listener records it as typed. *)
Theorem submit_records_cvv_unmasked :
  forall (getSelector : Element -> string)
         (getElementLabel : Element -> option string),
    let field := mkElement "INPUT" "text" "cvv" "" "123" in
    let form := mkElement "FORM" "" "" "checkout" "" in
    test_any input_pattern (name field) = true
    /\ option_map i_value
         (input_capture getSelector getElementLabel field 0)
       = Some (Some "[masked]")
    /\ option_map i_formData
         (submit_capture getSelector getElementLabel form [field] "" 0)
       = Some (Some [("cvv", "123")]).
Proof. intros; repeat split. Qed.

End InteractionFacts.

(* ================================================================== *)
(** * Properties of the element locator *)
(* ================================================================== *)

Module DomFacts.
Import Dom.












End DomFacts.

(* ================================================================== *)
(** * Properties of the developer-declared context *)
(* ================================================================== *)

Module ReportFacts.
Import ElementReport.

(** C9, as stated, fails: a source file that introspection detected
    is replaced by the developer-declared one (the detected name is
    kept). *)
Lemma declared_file_overrides_detected :
  let d' := apply_developer_context (fun _ => Some declared)
              (Some "{...}") detected in
  option_map name (component d') = Some (JString "Button")
  /\ option_map file (component detected) = Some (JString "src/Button.jsx")
  /\ option_map file (component d') = Some (JString "dev/Widget.tsx").
Proof. repeat split. Qed.

Section Facts.
Variable JSON_parse : string -> option Json.

Lemma apply_file_name dc d c :
  component d = Some c ->
  exists c', component (apply_file dc d) = Some c' /\ name c' = name c.
Proof.
  intros Hc; unfold apply_file.
  destruct (member dc "file") as [f|]; [|eauto].
  destruct (truthy f); [|eauto].
  rewrite Hc. destruct f as [fv|]; [|eauto].
  eexists; split; reflexivity.
Qed.

Lemma apply_file_sets fields d c f :
  component d = Some c ->
  Js.obj_get "file" fields = Some f -> truthy (Some f) = true ->
  exists c', component (apply_file (JObject fields) d) = Some c'
             /\ file c' = f.
Proof.
  intros Hc Hf Ht; unfold apply_file; simpl. rewrite Hf, Ht, Hc.
  eexists; split; reflexivity.
Qed.

(** C9, amended.  The developer-declared [component] is a fallback:
    a name that introspection detected is kept.  The declared
    [file] is not: whenever the attribute holds a JSON object with
    a [file] and there is a component record, that file is the one
    reported, whether or not introspection had found one.
    Malformed JSON leaves the capture as it was. *)
Theorem developer_context_name_fallback_file_override :
  forall (attr : option string) (d : Data),
    let d' := apply_developer_context JSON_parse attr d in
    (forall c, component d = Some c -> truthy (Some (name c)) = true ->
       exists c', component d' = Some c' /\ name c' = name c)
    /\ (forall a fields c f,
          attr = Some a -> a <> "" -> JSON_parse a = Some (JObject fields) ->
          component d = Some c ->
          Js.obj_get "file" fields = Some f -> truthy (Some f) = true ->
          exists c', component d' = Some c' /\ file c' = f)
    /\ (forall a, attr = Some a -> JSON_parse a = None -> d' = d).
Proof.
  intros attr d; cbv zeta. split; [|split].
  - intros c Hc Hname. unfold apply_developer_context.
    destruct attr as [a|]; [|eauto].
    destruct (String.eqb a ""); [eauto|].
    destruct (JSON_parse a) as [dc|]; [|eauto].
    destruct (member dc "component") as [cv|]; [|simpl; eauto].
    destruct (truthy cv).
    + simpl component at 1. rewrite Hc.
      destruct cv as [cv|]; [|simpl; eauto].
      simpl in Hname. rewrite Hname. simpl negb. cbv iota.
      now apply apply_file_name.
    + now apply apply_file_name.
  - intros a fields c f -> Ha Hparse Hc Hf Ht.
    unfold apply_developer_context.
    destruct (String.eqb_spec a ""); [contradiction|].
    rewrite Hparse. simpl member.
    destruct (Js.obj_get "component" fields) as [cv|].
    + destruct (truthy (Some cv)).
      * simpl component at 1. rewrite Hc.
        destruct (negb _); eapply apply_file_sets; try reflexivity; eauto.
      * eapply apply_file_sets; try reflexivity; eauto.
    + simpl truthy. cbv iota. eapply apply_file_sets; try reflexivity; eauto.
  - intros a -> Hparse. unfold apply_developer_context.
    destruct (String.eqb a ""); [reflexivity|]. now rewrite Hparse.
Qed.

End Facts.

Example developer_context_witness :
  (exists c', component (apply_developer_context (fun _ => Some declared)
                           (Some "{...}") detected) = Some c'
              /\ name c' = JString "Button")
  /\ (exists c', component (apply_developer_context (fun _ => Some declared)
                              (Some "{...}") detected) = Some c'
                 /\ file c' = JString "dev/Widget.tsx").
Proof.
  destruct (developer_context_name_fallback_file_override
              (fun _ => Some declared) (Some "{...}") detected)
    as (Hname & Hfile & _).
  split.
  - apply (Hname (mkComponent (JString "Button") None None
                    (JString "src/Button.jsx"))); reflexivity.
  - apply (Hfile "{...}"
             [("component", JString "Widget");
              ("file", JString "dev/Widget.tsx")]
             (mkComponent (JString "Button") None None
                (JString "src/Button.jsx")));
      try reflexivity. discriminate.
Defined.

End ReportFacts.

(* ================================================================== *)
(** * Lengths of cut strings *)
(* ================================================================== *)

Module StringFacts.

Lemma substring_le n s : (String.length (String.substring 0 n s) <= n)%nat.
Proof.
  revert s; induction n as [|n IH]; intros s.
  - destruct s; simpl; lia.
  - destruct s as [|c s]; simpl; [lia|]. specialize (IH s). lia.
Qed.

Lemma substring0_le n s : Js.length (Js.substring0 n s) <= Z.max 0 n.
Proof.
  unfold Js.length, Js.substring0.
  pose proof (substring_le (Z.to_nat n) s). lia.
Qed.

Lemma length_append s t :
  Js.length (s ++ t) = Js.length s + Js.length t.
Proof.
  unfold Js.length.
  induction s as [|c s IH]; simpl String.length; [lia|].
  rewrite !Nat2Z.inj_succ. simpl in IH. lia.
Qed.

End StringFacts.

(* ================================================================== *)
(** * More on the bounded sanitizer *)
(* ================================================================== *)

Module SanitizerMore.
Import Sanitizer SanitizerShape SanitizerFacts.

Lemma obj_get_set_same {A : Type} k (v : A) o :
  Js.obj_get k (Js.obj_set k v o) = Some v.
Proof.
  induction o as [|[k0 v0] o IH]; simpl.
  - now rewrite String.eqb_refl.
  - destruct (String.eqb k0 k) eqn:E; simpl; rewrite E; auto.
Qed.

Lemma obj_set_pairs {A : Type} (Q : string * A -> Prop) k v o :
  Forall Q o -> Q (k, v) -> Forall Q (Js.obj_set k v o).
Proof.
  induction o as [|[k' v'] o IH]; simpl; intros Ho Hv.
  - now constructor.
  - inversion Ho; subst.
    destruct (String.eqb_spec k' k); constructor; subst; auto.
Qed.

Lemma clean_SObject fields :
  Forall clean_field fields -> clean (SObject fields) = true.
Proof.
  intros Hall; simpl. apply forallb_forall; intros kv Hin.
  rewrite Forall_forall in Hall. destruct (Hall kv Hin) as [Hk Hv].
  now rewrite Hk, Hv.
Qed.

Section Shape.
Variable h : Heap.

Lemma fold_forEach_clean f obj d m :
  (forall v, clean (f v d m) = true) ->
  forall keys result,
    Forall clean_field result ->
    Forall clean_field (fold_left (forEach_key h f obj d m) keys result).
Proof.
  intros Hf; induction keys as [|key keys IH]; intros result Hres;
    simpl; [assumption|].
  apply IH. unfold forEach_key.
  destruct (Js.startsWith "__" key || Js.startsWith "$$" key)%bool eqn:Hk;
    [assumption|].
  destruct (get h obj key); apply obj_set_pairs; try assumption;
    split; simpl; auto.
Qed.

Lemma sanitizeObject_with_clean f obj d m :
  (forall v, clean (f v d m) = true) ->
  clean (sanitizeObject_with h f obj d m) = true.
Proof.
  intros Hf; unfold sanitizeObject_with.
  destruct (d <=? 0); [reflexivity|].
  destruct (_ || _)%bool; [reflexivity|].
  destruct (_ >? _); apply clean_SObject, fold_forEach_clean; auto.
  repeat constructor.
Qed.

Lemma sanitizeValue_rec_clean :
  forall n v d m, clean (sanitizeValue_rec h n v d m) = true.
Proof.
  induction n as [|n IH]; intros v d m; simpl; [reflexivity|].
  unfold sanitizeValue_body.
  destruct (d <=? 0); [reflexivity|].
  destruct v; try reflexivity.
  - destruct (_ >? _); reflexivity.
  - destruct (h a).
    + destruct (_ >? _); [reflexivity|]. simpl.
      apply forallb_forall; intros x Hx.
      apply in_map_iff in Hx. destruct Hx as (v & <- & _). apply IH.
    + apply sanitizeObject_with_clean. intros; apply IH.
Qed.

Lemma caps_SObject fields :
  (List.length fields <= 21)%nat ->
  Forall (fun kv => within_caps (snd kv) = true) fields ->
  within_caps (SObject fields) = true.
Proof.
  intros Hlen Hall; simpl. apply andb_true_intro; split.
  - apply Z.leb_le. unfold MAX_OBJECT_KEYS. lia.
  - apply forallb_forall; intros kv Hin.
    rewrite Forall_forall in Hall. now apply Hall.
Qed.

Lemma sanitizeObject_with_caps f obj d m :
  (forall v, within_caps (f v d m) = true) ->
  within_caps (sanitizeObject_with h f obj d m) = true.
Proof.
  intros Hf; unfold sanitizeObject_with.
  destruct (d <=? 0); [reflexivity|].
  destruct (_ || _)%bool; [reflexivity|].
  set (keys := Object_keys h obj).
  destruct (Z.of_nat (List.length keys) >? MAX_OBJECT_KEYS) eqn:Hk.
  - apply caps_SObject.
    + pose proof (firstn_le_length (Z.to_nat MAX_OBJECT_KEYS) keys).
      set (r0 := Js.obj_set "..." _ []).
      assert (Hr0 : List.length r0 = 1%nat) by reflexivity.
      pose proof (fold_forEach_length h f obj d m
                    (firstn (Z.to_nat MAX_OBJECT_KEYS) keys) r0) as Hb.
      unfold MAX_OBJECT_KEYS in *. lia.
    + apply (fold_forEach_Forall h (fun s => within_caps s = true));
        auto. repeat constructor.
  - apply caps_SObject.
    + pose proof (fold_forEach_length h f obj d m keys []) as Hb.
      simpl in Hb.
      destruct (Z.gtb_spec (Z.of_nat (List.length keys)) MAX_OBJECT_KEYS);
        [discriminate|]. unfold MAX_OBJECT_KEYS in *. lia.
    + apply (fold_forEach_Forall h (fun s => within_caps s = true));
        auto.
Qed.

Lemma sanitizeValue_rec_caps :
  forall n v d m, within_caps (sanitizeValue_rec h n v d m) = true.
Proof.
  induction n as [|n IH]; intros v d m; simpl; [reflexivity|].
  unfold sanitizeValue_body.
  destruct (d <=? 0); [reflexivity|].
  destruct v; try reflexivity.
  - destruct (_ >? _); reflexivity.
  - destruct (h a).
    + destruct (Z.of_nat (List.length items) >? MAX_ARRAY_LENGTH) eqn:Hk;
        [reflexivity|]. simpl. apply andb_true_intro; split.
      * apply Z.leb_le. rewrite length_map.
        pose proof (firstn_le_length 10 items).
        unfold MAX_ARRAY_LENGTH in *. simpl in *. lia.
      * apply forallb_forall; intros x Hx.
        apply in_map_iff in Hx. destruct Hx as (v & <- & _). apply IH.
    + apply sanitizeObject_with_caps. intros; apply IH.
Qed.


End Shape.

(** X1.  Key filtering: in the result of [sanitizeValue], for every
    input and every depth, no object at any level of nesting has a
    key that starts with [__] or [$$]. *)
Theorem sanitizeValue_drops_internal_keys :
  forall (h : Heap) (value : Value) (depth maxStringLength : Z),
    clean (sanitizeValue h value depth maxStringLength) = true.
Proof. intros; apply sanitizeValue_rec_clean. Qed.

(** X2.  Width bound: in the result of [sanitizeValue] every array,
    at any level of nesting, has at most 10 items and every object at
    most 21 keys. *)
Theorem sanitizeValue_within_caps :
  forall (h : Heap) (value : Value) (depth maxStringLength : Z),
    within_caps (sanitizeValue h value depth maxStringLength) = true.
Proof. intros; apply sanitizeValue_rec_caps. Qed.

(** X3.  Key cap of [sanitizeObject]: for a plain object and a
    positive depth the result is an object with at most 20 keys other
    than ["..."] and at most 21 keys in all; and when the object has
    more than 20 keys, none of the first 20 spelled ["..."], the
    ["..."] key holds ["(K-20 more keys)"]. *)
Theorem sanitizeObject_key_cap :
  forall (h : Heap) (a : Addr) (props : list (string * Property))
         (depth maxStringLength : Z),
    0 < depth -> h a = HObject props ->
    exists fields,
      sanitizeObject h (VRef a) depth maxStringLength = SObject fields
      /\ Z.of_nat (List.length (data_keys fields)) <= MAX_OBJECT_KEYS
      /\ Z.of_nat (List.length fields) <= MAX_OBJECT_KEYS + 1
      /\ (Z.of_nat (List.length props) > MAX_OBJECT_KEYS ->
          ~ In "..." (firstn (Z.to_nat MAX_OBJECT_KEYS) (map fst props)) ->
          Js.obj_get "..." fields
          = Some (counter (Z.of_nat (List.length props) - MAX_OBJECT_KEYS))).
Proof.
  intros h a props depth m Hd Ha.
  destruct (sanitizeObject_with_key_cap h (sanitizeValue h) (VRef a) depth m
              Hd eq_refl eq_refl) as (fields & Heq & Hdata & Hall & Hcnt).
  exists fields. repeat split; try assumption.
  intros Hgt Hnot. simpl Object_keys in Hcnt. rewrite Ha in Hcnt.
  rewrite length_map in Hcnt. now apply Hcnt.
Qed.

Example sanitizeObject_key_cap_witness :
  exists fields,
    sanitizeObject wide_heap (VRef 0%nat) 2 MAX_STRING_LENGTH
    = SObject fields
    /\ Z.of_nat (List.length (data_keys fields)) <= MAX_OBJECT_KEYS
    /\ Z.of_nat (List.length fields) <= MAX_OBJECT_KEYS + 1
    /\ Js.obj_get "..." fields = Some (counter 1).
Proof.
  destruct (sanitizeObject_key_cap wide_heap 0%nat
              (map (fun k => (k, Data (VBool true)))
                 ["k00"; "k01"; "k02"; "k03"; "k04"; "k05"; "k06"; "k07";
                  "k08"; "k09"; "k10"; "k11"; "k12"; "k13"; "k14"; "k15";
                  "k16"; "k17"; "k18"; "k19"; "k20"])
              2 MAX_STRING_LENGTH)
    as (fields & Heq & Hdata & Hall & Hcnt); [lia | reflexivity |].
  exists fields. repeat split; try assumption.
  apply Hcnt; [vm_compute; reflexivity|].
  vm_compute. intros H.
  repeat (destruct H as [H|H]; [discriminate|]). exact H.
Defined.



(** X5.  Called directly, [sanitizeObject(obj, depth)] returns a
    result that nests at most [depth + 1] levels: one more than
    [sanitizeValue] at the same depth, because the values of the
    object are sanitized at [depth], not [depth - 1]. *)
Theorem sanitizeObject_nesting :
  forall (h : Heap) (obj : Value) (depth maxStringLength : Z),
    Z.of_nat (nesting (sanitizeObject h obj depth maxStringLength))
    <= Z.max 0 depth + 1.
Proof.
  intros h obj depth m. unfold sanitizeObject, sanitizeObject_with.
  destruct (depth <=? 0); [simpl; lia|].
  destruct (_ || _)%bool; [simpl; lia|].
  assert (Hval : forall v,
             (nesting (sanitizeValue h v depth m) <= Z.to_nat depth)%nat).
  { intros v.
    now destruct (sanitizeValue_rec_bounded h (S (Z.to_nat depth)) v depth m). }
  assert (Hobj : forall keys result,
             Forall (fun kv => (nesting (snd kv) <= Z.to_nat depth)%nat)
                    result ->
             (nesting (SObject
                         (fold_left
                            (forEach_key h (sanitizeValue h) obj depth m)
                            keys result))
              <= S (Z.to_nat depth))%nat).
  { intros keys result Hres. simpl.
    apply le_n_S, list_max_le, Forall_map.
    apply (fold_forEach_Forall h
             (fun s => (nesting s <= Z.to_nat depth)%nat)); auto.
    simpl; lia. }
  destruct (_ >? _).
  - match goal with |- context [fold_left ?g ?ks ?r] =>
      pose proof (Hobj ks r) as Hb end.
    assert (Hn : (nesting
                    (SObject
                       (fold_left
                          (forEach_key h (sanitizeValue h) obj depth m)
                          (firstn (Z.to_nat MAX_OBJECT_KEYS)
                             (Object_keys h obj))
                          (Js.obj_set "..."
                             (str ("(" ++ Js.of_Z
                                     (Z.of_nat
                                        (List.length (Object_keys h obj))
                                      - MAX_OBJECT_KEYS)
                                   ++ " more keys)")) [])))
                  <= S (Z.to_nat depth))%nat).
    { apply Hobj. repeat constructor. simpl; lia. }
    lia.
  - pose proof (Hobj (Object_keys h obj) [] (Forall_nil _)). lia.
Qed.

End SanitizerMore.

(* ================================================================== *)
(** * More on the session recorder *)
(* ================================================================== *)

Module SessionMore.
Import SessionRecorder SessionEvents RingBuffer SessionFacts StringFacts.

Lemma capped_length {A : Type} (cap : nat) (l : list A) (x : A) :
  (List.length l <= cap)%nat ->
  (List.length (capped (Z.of_nat cap) l x) <= cap)%nat.
Proof.
  intros Hl. pose proof (fold_capped cap [x] l Hl) as H. simpl in H.
  rewrite H, length_skipn. lia.
Qed.

Lemma capped_last {A : Type} (cap : nat) (l : list A) (x d : A) :
  (0 < cap)%nat -> last (capped (Z.of_nat cap) l x) d = x.
Proof.
  intros Hcap. unfold capped.
  destruct (_ >? _) eqn:E.
  - destruct l as [|a l]; simpl in *.
    + destruct (Z.gtb_spec 1 (Z.of_nat cap)); [lia | discriminate].
    + apply last_last.
  - apply last_last.
Qed.

(** X6.  [start] on any page, a recording one included, leaves a
    recording session whose network log, interactions and snapshots
    are empty and whose console log holds one entry, the [info]
    message of [start] itself. *)
Theorem start_resets_session :
  forall (p : Page) (id stack : option string) (now : Z),
    let p' := start id stack now p in
    getSession now p' = mkStatus true 0 1 0 0 0
    /\ map c_type (consoleArrays p' (consoleLog (session p'))) = ["info"].
Proof.
  intros p id stack now; cbv zeta.
  unfold start, captureConsole, getSession;
    cbn -[String.append Js.substring0 push_capped assign].
  rewrite !push_capped_same, !assign_same, Z.sub_diag.
  split; reflexivity.
Qed.

Lemma capture_when_idle p e :
  isRecording (session p) = false -> is_capture e = true -> step p e = p.
Proof.
  intros Hrec He. destruct e; try discriminate; simpl;
    unfold captureConsole, onWindowError, onUnhandledRejection, fetch_call,
      xhr_send, takeSnapshot, addInteraction; now rewrite Hrec.
Qed.

(** X7.  While the session is not recording, console calls, error
    events, rejections, fetch and XHR calls, snapshots and
    interactions change nothing at all on the page. *)
Theorem idle_session_ignores_captures :
  forall (events : list Event) (p : Page),
    isRecording (session p) = false ->
    Forall (fun e => is_capture e = true) events ->
    run events p = p.
Proof.
  induction events as [|e events IH]; intros p Hrec Hall; [reflexivity|].
  inversion Hall; subst.
  change (run (e :: events) p) with (run events (step p e)).
  rewrite capture_when_idle by assumption. now apply IH.
Qed.

Example idle_session_ignores_captures_witness :
  run [EConsole "log" "hello" None 5;
       EFetch "/api" "GET" None 6;
       EInteraction click 7;
       ESnapshot None "http://localhost/" [] [] None 8] injected
  = injected.
Proof.
  apply idle_session_ignores_captures.
  - reflexivity.
  - repeat constructor.
Defined.

Lemma step_keeps_startTime p e :
  is_start e = false ->
  startTime (session (step p e)) = startTime (session p).
Proof.
  intros He. destruct e; try discriminate; simpl step;
    try (destruct (settle_session id o now p) as (E1 & _); now rewrite E1);
    unfold takeSnapshot;
    unfold captureConsole, onWindowError, onUnhandledRejection, fetch_call,
      xhr_send, addInteraction;
    cbn [session isRecording with_snapshots negb];
    destruct (isRecording (session p)); try reflexivity.
  destruct reason; reflexivity.
Qed.

Lemma run_keeps_startTime events :
  forall p,
    Forall (fun e => is_start e = false) events ->
    startTime (session (run events p)) = startTime (session p).
Proof.
  induction events as [|e events IH]; intros p Hall; [reflexivity|].
  inversion Hall; subst.
  change (run (e :: events) p) with (run events (step p e)).
  rewrite IH by assumption. now apply step_keeps_startTime.
Qed.

(** X8.  The duration [stop] reports is the time of [stop] minus the
    time of the last [start], whatever was recorded in between; and
    the session it leaves is not recording. *)
Theorem stop_reports_duration :
  forall (p : Page) (id stack : option string) (t0 t1 : Z)
         (events : list Event),
    Forall (fun e => is_start e = false) events ->
    let stopped := stop t1 (run events (start id stack t0 p)) in
    r_duration (snd stopped) = t1 - t0
    /\ r_endTime (snd stopped) = t1
    /\ r_startTime (snd stopped) = Some t0
    /\ isRecording (session (fst stopped)) = false.
Proof.
  intros p id stack t0 t1 events Hall; cbv zeta.
  assert (Hst : startTime (session (run events (start id stack t0 p)))
                = Some t0).
  { rewrite run_keeps_startTime by assumption.
    unfold start, captureConsole; reflexivity. }
  unfold stop; simpl. rewrite Hst. repeat split.
Qed.

Example stop_reports_duration_witness :
  let stopped :=
    stop 1500
      (run [EConsole "log" "a" None 1100; EStop 1200;
            EInteraction click 1300]
         (start None None 1000 injected)) in
  r_duration (snd stopped) = 1500 - 1000
  /\ r_endTime (snd stopped) = 1500
  /\ r_startTime (snd stopped) = Some 1000
  /\ isRecording (session (fst stopped)) = false.
Proof.
  apply (stop_reports_duration injected None None 1000 1500
           [EConsole "log" "a" None 1100; EStop 1200;
            EInteraction click 1300]).
  repeat constructor.
Defined.

(** X9.  Through [captureConsole] the console log is a FIFO window:
    after any number of console calls it holds the latest 200 of the
    entries it had and the entries of the calls, oldest first. *)
Theorem console_log_keeps_latest :
  forall (p : Page) (calls : list (string * string * option string * Z)),
    isRecording (session p) = true ->
    Z.of_nat (List.length (consoleArrays p (consoleLog (session p))))
    <= MAX_ENTRIES ->
    let all := (consoleArrays p (consoleLog (session p))
                ++ map console_entry calls)%list in
    consoleArrays (run (map console_event calls) p) (consoleLog (session p))
    = skipn (List.length all - Z.to_nat MAX_ENTRIES) all.
Proof.
  intros p calls Hrec Hlen; cbv zeta.
  destruct (run_console_events calls p Hrec) as [_ Hc]. rewrite Hc.
  change MAX_ENTRIES with (Z.of_nat (Z.to_nat MAX_ENTRIES)) at 1.
  apply fold_capped. unfold MAX_ENTRIES in *. lia.
Qed.

Example console_log_keeps_latest_witness :
  let p := start None None 0 injected in
  let calls := repeat ("log", "tick", None, 1) 201 in
  let all := (consoleArrays p (consoleLog (session p))
              ++ map console_entry calls)%list in
  consoleArrays (run (map console_event calls) p) (consoleLog (session p))
  = skipn (List.length all - Z.to_nat MAX_ENTRIES) all.
Proof.
  apply (console_log_keeps_latest (start None None 0 injected)
           (repeat ("log", "tick", None, 1) 201)).
  - reflexivity.
  - vm_compute. discriminate.
Defined.


Lemma capped_within {A : Type} (cap : Z) (l : list A) (x : A) :
  Z.of_nat (List.length l) <= cap ->
  Z.of_nat (List.length (capped cap l x)) <= cap.
Proof.
  intros Hl. unfold capped.
  destruct (Z.gtb_spec (Z.of_nat (List.length (l ++ [x])%list)) cap)
    as [Hgt|Hle]; [|exact Hle].
  destruct l; simpl in *; [lia|]. rewrite length_app; simpl in *.
  rewrite length_app in Hgt; simpl in Hgt. lia.
Qed.

Ltac open_ops :=
  unfold start, takeSnapshot;
  unfold stop, captureConsole, onWindowError, onUnhandledRejection,
    fetch_call, xhr_send, addInteraction;
  cbn [session isRecording with_snapshots negb].

Ltac cap_goal :=
  cbn -[String.append Js.substring0 push_capped assign capped
        MAX_ENTRIES MAX_NETWORK MAX_INTERACTIONS];
  rewrite ?push_capped_same, ?assign_same;
  try assumption;
  try (apply capped_within; rewrite ?assign_same; try assumption;
       simpl; unfold MAX_ENTRIES, MAX_NETWORK, MAX_INTERACTIONS; lia);
  try (simpl; unfold MAX_ENTRIES, MAX_NETWORK, MAX_INTERACTIONS; lia).

Lemma step_interactions_ok p e :
  interactions_ok p -> interactions_ok (step p e).
Proof.
  unfold interactions_ok; intros H.
  destruct e; simpl step;
    try (destruct (settle_session id o now p) as (E1 & _ & _ & E4 & _);
         now rewrite E1, E4);
    open_ops; destruct (isRecording (session p));
    try (destruct reason); cap_goal.
Qed.

Lemma step_console_ok p e :
  pushes_uncapped e = false -> console_ok p -> console_ok (step p e).
Proof.
  unfold console_ok; intros He H.
  destruct e; try discriminate; simpl step;
    try (destruct (settle_session id o now p) as (E1 & _ & E3 & _);
         now rewrite E1, E3);
    open_ops; destruct (isRecording (session p)); cap_goal.
Qed.

Lemma step_network_ok p e :
  pushes_uncapped e = false -> network_ok p -> network_ok (step p e).
Proof.
  unfold network_ok; intros He H.
  destruct e; try discriminate; simpl step;
    try (open_ops; destruct (isRecording (session p)); cap_goal; fail).
  unfold settle.
  destruct (take_pending id (inflight p)) as [[c rest]|]; [|assumption].
  destruct c, o; try discriminate;
    unfold fetch_then, xhr_loadend; cap_goal.
Qed.

(** X10.  The interactions of the session never number more than
    500, whatever happens on the page after the injection. *)
Theorem interactions_never_exceed_cap :
  forall events : list Event,
    let p := run events injected in
    Z.of_nat (List.length (interactionArrays p (interactions (session p))))
    <= MAX_INTERACTIONS.
Proof.
  intros events; cbv zeta.
  assert (H : forall evs p, interactions_ok p -> interactions_ok (run evs p)).
  { induction evs as [|e evs IH]; intros p Hp; [exact Hp|].
    change (run (e :: evs) p) with (run evs (step p e)).
    now apply IH, step_interactions_ok. }
  apply H. unfold interactions_ok; simpl. unfold MAX_INTERACTIONS; lia.
Qed.

(** X11.  As long as no [error] event, no unhandled rejection and no
    rejected request occurs, the console log of the session never
    holds more than 200 entries and its network log never more than
    100. *)
Theorem quiet_session_logs_within_caps :
  forall events : list Event,
    Forall (fun e => pushes_uncapped e = false) events ->
    let p := run events injected in
    Z.of_nat (List.length (consoleArrays p (consoleLog (session p))))
    <= MAX_ENTRIES
    /\ Z.of_nat (List.length (networkArrays p (networkLog (session p))))
       <= MAX_NETWORK.
Proof.
  intros events Hall; cbv zeta.
  assert (H : forall evs p,
             Forall (fun e => pushes_uncapped e = false) evs ->
             console_ok p /\ network_ok p ->
             console_ok (run evs p) /\ network_ok (run evs p)).
  { induction evs as [|e evs IH]; intros p Hq [Hc Hn]; [now split|].
    inversion Hq; subst.
    change (run (e :: evs) p) with (run evs (step p e)).
    apply IH; [assumption|].
    split; [now apply step_console_ok | now apply step_network_ok]. }
  apply H; [exact Hall|].
  split; [unfold console_ok | unfold network_ok]; simpl;
    unfold MAX_ENTRIES, MAX_NETWORK; lia.
Qed.

Example quiet_session_logs_witness :
  let p := run [EStart None None 0;
                EFetch "/a" "GET" None 1;
                ESettle 0 (Responded 200 None) 2;
                EConsole "warn" "w" None 3] injected in
  Z.of_nat (List.length (consoleArrays p (consoleLog (session p))))
  <= MAX_ENTRIES
  /\ Z.of_nat (List.length (networkArrays p (networkLog (session p))))
     <= MAX_NETWORK.
Proof.
  apply (quiet_session_logs_within_caps
           [EStart None None 0;
            EFetch "/a" "GET" None 1;
            ESettle 0 (Responded 200 None) 2;
            EConsole "warn" "w" None 3]).
  repeat constructor.
Defined.


Lemma obj_get_In {A : Type} k (v : A) o :
  Js.obj_get k o = Some v -> In (k, v) o.
Proof.
  induction o as [|[k' v'] o IH]; simpl; [discriminate|].
  destruct (String.eqb_spec k' k); intros H.
  - inversion H; subst. now left.
  - right; now apply IH.
Qed.

(** X12.  A snapshot takes a storage entry whole or not at all:
    every entry of the captured map is an entry of the storage, with
    its value unchanged, non-empty and shorter than 1000
    characters. *)
Theorem snapshot_storage_entries_whole :
  forall (storage : list (string * string)) (key value : string),
    Js.obj_get key (storage_entries storage) = Some value ->
    In (key, value) storage
    /\ value <> ""
    /\ Js.length value < 1000.
Proof.
  intros storage key value Hget.
  assert (Hall : forall l acc,
             Forall (fun kv => In kv storage /\ snd kv <> ""
                               /\ Js.length (snd kv) < 1000) acc ->
             incl l storage ->
             Forall (fun kv => In kv storage /\ snd kv <> ""
                               /\ Js.length (snd kv) < 1000)
               (fold_left
                  (fun acc kv =>
                     if (negb (String.eqb (snd kv) "")
                         && (Js.length (snd kv) <? 1000))%bool
                     then Js.obj_set (fst kv) (snd kv) acc else acc)
                  l acc)).
  { induction l as [|[k v] l IH]; intros acc Hacc Hincl; simpl;
      [assumption|].
    apply IH; [|intros x Hx; apply Hincl; now right].
    destruct (String.eqb_spec v ""); simpl; [assumption|].
    destruct (Z.ltb_spec (Js.length v) 1000); [|assumption].
    apply SanitizerMore.obj_set_pairs; [assumption|].
    simpl. repeat split; try assumption. apply Hincl; now left. }
  apply obj_get_In in Hget.
  specialize (Hall storage [] (Forall_nil _) (incl_refl _)).
  rewrite Forall_forall in Hall. exact (Hall _ Hget).
Qed.

Example snapshot_storage_entries_witness :
  In ("theme", "dark") [("token", ""); ("theme", "dark")]
  /\ "dark" <> ""
  /\ Js.length "dark" < 1000.
Proof.
  apply (snapshot_storage_entries_whole
           [("token", ""); ("theme", "dark")] "theme" "dark").
  reflexivity.
Defined.

Lemma takeSnapshot_recording label url ls ss stack now p :
  isRecording (session p) = true ->
  session (takeSnapshot label url ls ss stack now p) = session p
  /\ List.length
       (snapshotArrays (takeSnapshot label url ls ss stack now p)
          (snapshots (session p)))
     = S (List.length (snapshotArrays p (snapshots (session p)))).
Proof.
  intros Hrec. unfold takeSnapshot, captureConsole;
    cbn [session isRecording with_snapshots negb]. rewrite Hrec.
  cbn -[String.append Js.substring0 push_capped].
  split; [reflexivity|].
  unfold push. rewrite assign_same, length_app. simpl. lia.
Qed.

(** X13.  The snapshot list has no cap: while the session records,
    every snapshot request appends one snapshot, so after [n]
    requests the list is [n] longer. *)
Theorem snapshots_grow_without_cap :
  forall (events : list Event) (p : Page),
    isRecording (session p) = true ->
    Forall (fun e => is_snapshot e = true) events ->
    List.length (snapshotArrays (run events p) (snapshots (session p)))
    = (List.length (snapshotArrays p (snapshots (session p)))
       + List.length events)%nat.
Proof.
  induction events as [|e events IH]; intros p Hrec Hall; [simpl; lia|].
  inversion Hall as [|? ? He Hrest]; subst.
  destruct e; try discriminate.
  change (run (ESnapshot label url localStorage sessionStorage stack now
                 :: events) p)
    with (run events
            (takeSnapshot label url localStorage sessionStorage stack now p)).
  destruct (takeSnapshot_recording label url localStorage sessionStorage
              stack now p Hrec) as [Hs Hlen].
  set (q := takeSnapshot _ _ _ _ _ _ p) in *.
  assert (Hq : isRecording (session q) = true) by now rewrite Hs.
  specialize (IH q Hq Hrest). rewrite Hs in IH. rewrite IH, Hlen.
  simpl List.length. lia.
Qed.

Example snapshots_grow_witness :
  let p := start None None 0 injected in
  let events := repeat (ESnapshot None "http://localhost/" [] [] None 1) 51 in
  List.length (snapshotArrays (run events p) (snapshots (session p)))
  = (List.length (snapshotArrays p (snapshots (session p)))
     + List.length events)%nat.
Proof.
  apply (snapshots_grow_without_cap
           (repeat (ESnapshot None "http://localhost/" [] [] None 1) 51)
           (start None None 0 injected)).
  - reflexivity.
  - apply Forall_forall. intros e He. apply repeat_spec in He. now subst.
Defined.

(** X14.  What the handlers of a request record as status and
    [failed]: the [then] handler of a fetch records the status of the
    response and [failed] exactly when the status is outside 200 to
    299; the [catch] handler records status 0 and [failed]; the
    [loadend] listener of an XHR records the status and [failed]
    exactly when the status is 0 or at least 400.  The entry is the
    last one of the network log. *)
Theorem network_entry_status_and_failed :
  forall (p : Page) (now status : Z) (d : NetworkEntry),
    (forall c,
       let e := last (networkArrays (fetch_then c status now p)
                        (networkLog (session p))) d in
       n_status e = status
       /\ (n_failed e = true <-> ~ (200 <= status <= 299)))
    /\ (forall c m,
          let e := last (networkArrays (fetch_catch c m now p)
                           (networkLog (session p))) d in
          n_status e = 0 /\ n_failed e = true /\ n_error e = Some m)
    /\ (forall c text,
          let e := last (networkArrays (xhr_loadend c status text now p)
                           (networkLog (session p))) d in
          n_status e = status
          /\ (n_failed e = true <-> status = 0 \/ status >= 400)).
Proof.
  intros p now status d. split; [|split].
  - intros c; cbv zeta. unfold fetch_then; simpl networkArrays.
    rewrite push_capped_same.
    change MAX_NETWORK with (Z.of_nat 100).
    rewrite capped_last by lia. simpl. split; [reflexivity|].
    unfold response_ok.
    rewrite negb_true_iff, andb_false_iff, !Z.leb_gt. lia.
  - intros c m; cbv zeta. unfold fetch_catch; simpl networkArrays.
    unfold push. rewrite assign_same, last_last. now repeat split.
  - intros c text; cbv zeta. unfold xhr_loadend; simpl networkArrays.
    rewrite push_capped_same.
    change MAX_NETWORK with (Z.of_nat 100).
    rewrite capped_last by lia. simpl. split; [reflexivity|].
    apply xhr_failed_iff.
Qed.

Example network_entry_status_witness :
  let p := start None None 0 injected in
  let d := mkNetwork "" "" 0 None None 0 0 false None in
  n_failed (last (networkArrays
                    (fetch_then (mkPendingFetch 1 "/a" "GET" None) 304 5 p)
                    (networkLog (session p))) d) = true
  /\ n_failed (last (networkArrays
                       (xhr_loadend (mkPendingXhr 1 None (Some "/a") None)
                          404 None 5 p)
                       (networkLog (session p))) d) = true.
Proof.
  destruct (network_entry_status_and_failed
              (start None None 0 injected) 5 304
              (mkNetwork "" "" 0 None None 0 0 false None)) as (Hf & _ & _).
  destruct (network_entry_status_and_failed
              (start None None 0 injected) 5 404
              (mkNetwork "" "" 0 None None 0 0 false None)) as (_ & _ & Hx).
  split.
  - apply (Hf (mkPendingFetch 1 "/a" "GET" None)). lia.
  - apply (Hx (mkPendingXhr 1 None (Some "/a") None) None). right; lia.
Defined.

(** X15.  Size bounds of a network entry: the recorded URL has at
    most 500 characters and the recorded response body of an XHR at
    most 5000; the request body kept at call time has at most 5000
    characters. *)
Theorem network_entry_sizes :
  forall (p : Page) (now status : Z) (d : NetworkEntry),
    (forall c,
       Js.length (n_url (last (networkArrays (fetch_then c status now p)
                                 (networkLog (session p))) d)) <= 500)
    /\ (forall c m,
          Js.length (n_url (last (networkArrays (fetch_catch c m now p)
                                    (networkLog (session p))) d)) <= 500)
    /\ (forall c text,
          let e := last (networkArrays (xhr_loadend c status text now p)
                           (networkLog (session p))) d in
          Js.length (n_url e) <= 500
          /\ forall b, n_responseBody e = Some b -> Js.length b <= MAX_BODY)
    /\ (forall body b,
          captured_body body = Some b -> Js.length b <= MAX_BODY).
Proof.
  intros p now status d. split; [|split; [|split]].
  - intros c. unfold fetch_then; simpl networkArrays.
    rewrite push_capped_same. change MAX_NETWORK with (Z.of_nat 100).
    rewrite capped_last by lia. simpl n_url.
    pose proof (substring0_le 500 (pf_url c)). lia.
  - intros c m. unfold fetch_catch; simpl networkArrays.
    unfold push. rewrite assign_same, last_last. simpl n_url.
    pose proof (substring0_le 500 (pf_url c)). lia.
  - intros c text; cbv zeta. unfold xhr_loadend; simpl networkArrays.
    rewrite push_capped_same. change MAX_NETWORK with (Z.of_nat 100).
    rewrite capped_last by lia. simpl. split.
    + pose proof (substring0_le 500 (or_default (px_sessionUrl c) "")). lia.
    + intros b Hb. destruct text as [t|]; [|discriminate].
      destruct (String.eqb t ""); [discriminate|].
      inversion Hb; subst.
      pose proof (substring0_le MAX_BODY t). unfold MAX_BODY in *. lia.
  - intros body b Hb. destruct body as [[s|]|]; simpl in Hb;
      [| inversion Hb; subst; vm_compute; discriminate | discriminate].
    destruct (String.eqb s ""); [discriminate|]. inversion Hb; subst.
    pose proof (substring0_le MAX_BODY s). unfold MAX_BODY in *. lia.
Qed.

Example network_entry_sizes_witness :
  Js.length "{}" <= MAX_BODY.
Proof.
  destruct (network_entry_sizes injected 0 200
              (mkNetwork "" "" 0 None None 0 0 false None))
    as (_ & _ & _ & H).
  apply (H (Some (StringBody "{}"))). reflexivity.
Defined.

(** X16.  Size bounds of a console entry: [captureConsole] records
    at most 2000 characters of message and at most 1000 of stack, and
    never an empty stack. *)
Theorem console_entry_sizes :
  forall (type message : string) (stack : option string) (now : Z),
    let e := console_entry (type, message, stack, now) in
    Js.length (c_message e) <= 2000
    /\ forall s, c_stack e = Some s -> Js.length s <= 1000 /\ stack <> Some "".
Proof.
  intros type message stack now; cbv zeta. simpl. split.
  - pose proof (substring0_le 2000 message). lia.
  - intros s Hs. destruct stack as [st|]; [|discriminate].
    destruct (String.eqb_spec st ""); [discriminate|].
    inversion Hs; subst. split; [|congruence].
    pose proof (substring0_le 1000 st). lia.
Qed.

Example console_entry_sizes_witness :
  Js.length "at main" <= 1000 /\ Some "at main" <> Some "".
Proof.
  destruct (console_entry_sizes "error" "boom" (Some "at main") 0)
    as (_ & H).
  apply H. reflexivity.
Defined.

End SessionMore.

(* ================================================================== *)
(** * More on the interaction recorder *)
(* ================================================================== *)

Module InteractionMore.
Import SessionRecorder InteractionRecorder InteractionShape StringFacts.

Lemma cut_with_dots_le n s :
  0 <= n -> Js.length (Js.substring0 n s ++ "...") <= n + 3.
Proof.
  intros Hn. rewrite length_append.
  pose proof (substring0_le n s). change (Js.length "...") with 3. lia.
Qed.

(** X17.  For a field whose name or id matches the pattern of the
    [input] listener, the value that listener records is
    ["[masked]"], or empty when the field is empty: never what was
    typed. *)
Theorem sensitive_input_never_raw :
  forall (getSelector : Element -> string)
         (getElementLabel : Element -> option string)
         (target : Element) (now : Z) (e : InteractionEntry),
    (test_any input_pattern (name target)
     || test_any input_pattern (id target))%bool = true ->
    input_capture getSelector getElementLabel target now = Some e ->
    i_value e = Some "[masked]" \/ i_value e = Some "".
Proof.
  intros gs gl target now e Hsens He. unfold input_capture in He.
  destruct (String.eqb (type target) "password"); [discriminate|].
  rewrite Hsens in He. inversion He; subst; clear He. simpl.
  destruct (Js.length (value target) >? 100).
  - rewrite InteractionFacts.append_dots_nonempty. now left.
  - destruct (String.eqb_spec (value target) "") as [->|]; simpl; auto.
Qed.

Example sensitive_input_never_raw_witness :
  let e := mkInteraction "input" "input" (Some 0) None (Some "[masked]")
             None None in
  i_value e = Some "[masked]" \/ i_value e = Some "".
Proof.
  apply (sensitive_input_never_raw (fun _ => "input") (fun _ => None)
           (mkElement "INPUT" "tel" "contact" "phone-field" "555 0100") 0);
    reflexivity.
Defined.

(** X18.  The [input] listener records nothing for a password field
    and, for every other field, a value of at most 100 characters. *)
Theorem input_value_capped :
  forall (getSelector : Element -> string)
         (getElementLabel : Element -> option string)
         (target : Element) (now : Z),
    (input_capture getSelector getElementLabel target now = None
     <-> type target = "password")
    /\ forall e,
         input_capture getSelector getElementLabel target now = Some e ->
         exists v, i_value e = Some v /\ Js.length v <= 100.
Proof.
  intros gs gl target now. unfold input_capture.
  destruct (String.eqb_spec (type target) "password") as [Hpw|Hpw].
  - split; [now split | discriminate].
  - split; [split; [discriminate | contradiction]|].
    intros e He. inversion He; subst; clear He. simpl.
    eexists; split; [reflexivity|].
    destruct (_ && _)%bool; [vm_compute; discriminate|].
    destruct (Z.gtb_spec (Js.length (value target)) 100).
    + pose proof (cut_with_dots_le 97 (value target)). lia.
    + assumption.
Qed.

Lemma collect_field_entries formData input :
  Forall formData_entry formData ->
  Forall formData_entry (collect_field formData input).
Proof.
  intros Hall. unfold collect_field.
  destruct (_ && _)%bool; [|assumption].
  apply SanitizerMore.obj_set_pairs; [assumption|].
  unfold formData_entry. cbn [fst snd].
  set (v := if (negb (String.eqb (value input) "")
                && (Js.length (value input) >? 50))%bool
            then Js.substring0 47 (value input) ++ "..."
            else value input).
  assert (Hv : Js.length v <= 50).
  { unfold v. destruct (String.eqb_spec (value input) "") as [He|He]; simpl.
    - rewrite He. unfold Js.length; simpl; lia.
    - destruct (Z.gtb_spec (Js.length (value input)) 50).
      + pose proof (cut_with_dots_le 47 (value input)). lia.
      + assumption. }
  destruct (test_any submit_pattern (name input)); simpl.
  - destruct (String.eqb_spec v "") as [He|He]; simpl.
    + split; [exact Hv | now right].
    + split; [unfold Js.length; simpl; lia | now left].
  - split; [exact Hv | discriminate].
Qed.

Lemma fold_collect_entries inputs :
  forall formData,
    Forall formData_entry formData ->
    Forall formData_entry (fold_left collect_field inputs formData).
Proof.
  induction inputs as [|i inputs IH]; intros fd Hfd; simpl; [assumption|].
  now apply IH, collect_field_entries.
Qed.

Example input_value_capped_witness :
  exists v,
    i_value (mkInteraction "input" "#q" (Some 0) None (Some "rocq") None None)
    = Some v
    /\ Js.length v <= 100.
Proof.
  destruct (input_value_capped (fun _ => "#q") (fun _ => None)
              (mkElement "INPUT" "search" "q" "q" "rocq") 0) as (_ & H).
  apply H. reflexivity.
Defined.

(** X19.  The form data of a [submit] never depend on the password
    fields of the form: they are what the form without its password
    fields gives; and every recorded value has at most 50
    characters. *)
Theorem submit_ignores_password_fields :
  forall inputs : list Element,
    fold_left collect_field inputs []
    = fold_left collect_field (filter not_password inputs) []
    /\ Forall (fun kv => Js.length (snd kv) <= 50)
              (fold_left collect_field inputs []).
Proof.
  intros inputs. split.
  - generalize (@nil (string * string)) as fd.
    induction inputs as [|i inputs IH]; intros fd; simpl; [reflexivity|].
    unfold not_password at 1.
    destruct (String.eqb (type i) "password") eqn:Hpw; simpl.
    + unfold collect_field at 2. rewrite Hpw.
      rewrite andb_false_r. apply IH.
    + apply IH.
  - eapply Forall_impl; [|apply fold_collect_entries; constructor].
    now intros kv [Hlen _].
Qed.

(** X20.  For a field name that matches the pattern of the [submit]
    listener (email, phone, ssn, credit, card), the form data hold
    ["[masked]"], or the empty string for an empty field: never what
    was typed. *)
Theorem submit_masks_listed_names :
  forall (inputs : list Element) (key v : string),
    test_any submit_pattern key = true ->
    Js.obj_get key (fold_left collect_field inputs []) = Some v ->
    v = "[masked]" \/ v = "".
Proof.
  intros inputs key v Hkey Hget.
  apply SessionMore.obj_get_In in Hget.
  pose proof (fold_collect_entries inputs [] (Forall_nil _)) as Hall.
  rewrite Forall_forall in Hall.
  destruct (Hall _ Hget) as [_ Hmask]. now apply Hmask.
Qed.

Example submit_masks_listed_names_witness :
  "[masked]" = "[masked]" \/ "[masked]" = "".
Proof.
  apply (submit_masks_listed_names
           [mkElement "INPUT" "text" "card-number" "" "4111 1111";
            mkElement "INPUT" "password" "secret" "" "hunter2"]
           "card-number" "[masked]").
  - reflexivity.
  - reflexivity.
Defined.

(** ** Labels and the Safari interaction capture *)

Lemma substring_nonempty n s :
  (0 < n)%nat -> s <> "" -> String.substring 0 n s <> "".
Proof.
  intros Hn Hs. destruct n; [lia|]. destruct s; [contradiction|].
  simpl. discriminate.
Qed.

(** X21.  A label of [getElementLabel] is never empty and never longer
    than 50 characters; and there is a label as soon as the
    [aria-label], the title, the trimmed text, the placeholder or the
    alt text is not empty. *)
Theorem element_label_capped :
  forall element : Labels.LabelSource,
    (forall l, Labels.getElementLabel element = Some l ->
               l <> "" /\ Js.length l <= 50)
    /\ (Labels.getElementLabel element = None ->
        (Labels.ariaLabel element = None \/ Labels.ariaLabel element = Some "")
        /\ Labels.title element = ""
        /\ ElementUtils.trim (Labels.text element) = ""
        /\ Labels.placeholder element = ""
        /\ Labels.alt element = "").
Proof.
  intros [aria title text placeholder alt]; unfold Labels.getElementLabel;
    simpl.
  assert (Hcut : forall s, s <> "" ->
                   Js.substring0 50 s <> ""
                   /\ Js.length (Js.substring0 50 s) <= 50).
  { intros s Hs. split.
    - apply substring_nonempty; [vm_compute; lia | exact Hs].
    - pose proof (substring0_le 50 s). lia. }
  set (a := match aria with Some a => a | None => "" end).
  destruct (String.eqb_spec a "") as [Ha|Ha]; simpl.
  2:{ split; [|discriminate]. intros l Hl. inversion Hl; subst.
      now apply Hcut. }
  destruct (String.eqb_spec title "") as [Ht|Ht]; simpl.
  2:{ split; [|discriminate]. intros l Hl. inversion Hl; subst.
      now apply Hcut. }
  destruct (String.eqb_spec (ElementUtils.trim text) "") as [Hx|Hx]; simpl.
  - destruct (String.eqb_spec placeholder "") as [Hp|Hp]; simpl.
    2:{ split; [|discriminate]. intros l Hl. inversion Hl; subst.
        now apply Hcut. }
    destruct (String.eqb_spec alt "") as [Hal|Hal]; simpl.
    2:{ split; [|discriminate]. intros l Hl. inversion Hl; subst.
        now apply Hcut. }
    split; [discriminate|]. intros _. repeat split; try assumption.
    unfold a in Ha. destruct aria; subst; auto.
  - destruct (Z.ltb_spec (Js.length (ElementUtils.trim text)) 50).
    + split; [|discriminate]. intros l Hl. inversion Hl; subst.
      split; [assumption | lia].
    + destruct (Z.geb_spec (Js.length (ElementUtils.trim text)) 50);
        [|lia].
      split; [|discriminate]. intros l Hl. inversion Hl; subst. split.
      * intros Hempty.
        pose proof (InteractionFacts.append_dots_nonempty
                      (Js.substring0 47 (ElementUtils.trim text))) as Hd.
        rewrite Hempty in Hd. discriminate.
      * pose proof (cut_with_dots_le 47 (ElementUtils.trim text)). lia.
Qed.

Example element_label_capped_witness :
  "Save" <> "" /\ Js.length "Save" <= 50.
Proof.
  destruct (element_label_capped
              (Labels.mkLabelSource None "" "  Save " "" "")) as (H & _).
  apply H. reflexivity.
Defined.

(** X22.  The interaction capture of the Safari content script
    records a target of at most 100 characters and, for an [input]
    event, a value of at most 53 characters (50 and the dots); for any
    other event it records no value. *)
Theorem safari_interaction_sizes :
  forall (type : string) (target : option Labels.Target) (now : Z),
    let c := Labels.captureInteraction type target now in
    Js.length (Labels.k_target c) <= 100
    /\ (forall v, Labels.k_value c = Some v -> Js.length v <= 53)
    /\ (type <> "input" -> Labels.k_value c = None).
Proof.
  intros type target now; cbv zeta. unfold Labels.captureInteraction; simpl.
  split; [|split].
  - match goal with |- Js.length (Js.substring0 100 ?s) <= 100 =>
      pose proof (substring0_le 100 s) end. lia.
  - intros v Hv. destruct target as [el|]; [|discriminate].
    destruct (String.eqb type "input"); [|discriminate].
    inversion Hv; subst. rewrite length_append.
    pose proof (substring0_le 50 (Labels.t_value el)).
    destruct (_ >? _); simpl Js.length at 2;
      [change (Js.length "...") with 3 | change (Js.length "") with 0]; lia.
  - intros Hne. destruct target as [el|]; [|reflexivity].
    destruct (String.eqb_spec type "input"); [contradiction | reflexivity].
Qed.

Example safari_interaction_sizes_witness :
  Js.length "abc" <= 53.
Proof.
  destruct (safari_interaction_sizes "input"
              (Some (Labels.mkTarget "INPUT" "q" (Some "search box") "abc"))
              0) as (_ & H & _).
  apply H. reflexivity.
Defined.

End InteractionMore.

(* ================================================================== *)
(** * More on the element locator and the element utilities *)
(* ================================================================== *)

Module DomMore.
Import Dom StringFacts.

Lemma descend_prefix p :
  forall n k x,
    descend n (p ++ [k]) = Some x -> exists y, descend n p = Some y.
Proof.
  induction p as [|j p IH]; intros n k x H; simpl in *; [eauto|].
  destruct (nth_error (children n) j); [eauto | discriminate].
Qed.

Lemma node_at_parent doc k parent x :
  node_at doc (k :: parent) = Some x ->
  exists y, node_at doc parent = Some y.
Proof. unfold node_at; simpl. apply descend_prefix. Qed.

Lemma shared_walk_shape doc :
  forall el n path,
    node_at doc el = Some n ->
    exists before,
      Shared.walk doc el path
      = (before ++ Shared.step_selector doc el n :: path)%list
      /\ List.length before = List.length el.
Proof.
  induction el as [|k parent IH]; intros n path Hn.
  - unfold node_at in Hn; simpl in Hn. inversion Hn; subst n.
    exists []. now split.
  - cbn [Shared.walk]. rewrite Hn.
    destruct (node_at_parent doc k parent n Hn) as [y Hy].
    destruct (IH y (Shared.step_selector doc (k :: parent) n :: path) Hy)
      as (before & Heq & Hlen).
    exists (before ++ [Shared.step_selector doc parent y])%list.
    rewrite Heq, <- app_assoc. split; [reflexivity|].
    rewrite length_app. simpl. lia.
Qed.

(** X23.  The selector of shared-utils.js has one step for the
    element and one for each of its ancestors up to the root, joined
    by [" > "], and its last step is the element's own
    [tag#id.classes:nth-of-type(k)]; for a missing element it is the
    empty string. *)
Theorem shared_selector_steps :
  forall (doc : Node) (el : Element),
    (node_at doc el = None -> Shared.getCssSelector doc el = "")
    /\ forall n,
         node_at doc el = Some n ->
         exists ancestors,
           Shared.getCssSelector doc el
           = Js.join " > "
               (ancestors ++ [Shared.step_selector doc el n])%list
           /\ List.length ancestors = List.length el.
Proof.
  intros doc el. split.
  - intros Hn. unfold Shared.getCssSelector. now rewrite Hn.
  - intros n Hn. unfold Shared.getCssSelector. rewrite Hn.
    destruct (shared_walk_shape doc el n [] Hn) as (before & Heq & Hlen).
    exists before. now rewrite Heq.
Qed.

Example shared_selector_steps_witness :
  exists ancestors,
    Shared.getCssSelector page button
    = Js.join " > "
        (ancestors
         ++ [Shared.step_selector page button
               (Elem "BUTTON" "submit" "btn btn-primary" [])])%list
    /\ List.length ancestors = List.length button.
Proof.
  destruct (shared_selector_steps page button) as [_ H].
  apply (H (Elem "BUTTON" "submit" "btn btn-primary" [])). reflexivity.
Defined.

Lemma content_walk_length doc :
  forall remaining el parts,
    (List.length (Content.walk doc remaining el parts)
     <= List.length parts + remaining)%nat.
Proof.
  induction remaining as [|r IH]; intros el parts; simpl; [lia|].
  destruct (node_at doc el); [|lia].
  destruct (_ || _)%bool; [lia|].
  destruct (_ && _)%bool; [simpl; lia|].
  destruct el as [|k parent]; [simpl; lia|].
  specialize (IH parent
                ((Js.toLowerCase (tagName n)
                  ++ nth_of_type doc (k :: parent) n) :: parts)).
  cbn [List.length] in IH. lia.
Qed.

(** X24.  The selector of the Safari content script is built from at
    most [MAX_SELECTOR_DEPTH] (10) steps, however deep the element is,
    and for an element of the document it is never the empty
    string. *)
Theorem content_selector_bounded :
  forall (doc : Node) (el : Element),
    (List.length (Content.walk doc Content.MAX_SELECTOR_DEPTH el [])
     <= Content.MAX_SELECTOR_DEPTH)%nat
    /\ forall n, node_at doc el = Some n ->
                 Content.getCssSelector doc el <> "".
Proof.
  intros doc el. split.
  - pose proof (content_walk_length doc Content.MAX_SELECTOR_DEPTH el []).
    simpl in *. lia.
  - intros n Hn. unfold Content.getCssSelector. rewrite Hn.
    set (parts := Content.walk doc Content.MAX_SELECTOR_DEPTH el []).
    destruct (String.eqb_spec (Js.join " > " parts) ""); simpl;
      [|assumption].
    destruct (String.eqb_spec (Js.toLowerCase (tagName n)) ""); simpl;
      [discriminate | assumption].
Qed.

Example content_selector_bounded_witness :
  Content.getCssSelector page button <> "".
Proof.
  destruct (content_selector_bounded page button) as (_ & H).
  apply (H (Elem "BUTTON" "submit" "btn btn-primary" [])). reflexivity.
Defined.

(** ** Element utilities *)

Import ElementUtils.

(** X25.  The text label of [getTextContent] has at most
    [maxLength] characters and the three dots, and no dots at all
    when the element has no [innerText]. *)
Theorem text_content_capped :
  forall (childNodes : list ChildNode) (innerText : string) (maxLength : Z),
    Js.length (getTextContent childNodes innerText maxLength)
    <= Z.max 0 maxLength + 3
    /\ (innerText = "" ->
        Js.length (getTextContent childNodes innerText maxLength)
        <= Z.max 0 maxLength).
Proof.
  intros childNodes innerText maxLength. unfold getTextContent.
  set (direct := trim (fold_left _ childNodes "")).
  set (t := if (String.eqb direct "" && negb (String.eqb innerText ""))%bool
            then trim innerText else direct).
  clearbody t. clear direct.
  destruct (String.eqb_spec t "") as [Ht|Ht]; cbn [negb].
  - rewrite Ht. unfold Js.length; simpl. split; intros; lia.
  - pose proof (substring0_le maxLength (collapse_ws false t)) as Hcut.
    split.
    + destruct (negb (String.eqb innerText "")
                && (Js.length (trim innerText) >? maxLength))%bool; [|lia].
      rewrite length_append. change (Js.length "...") with 3. lia.
    + intros ->. cbn [String.eqb negb andb]. lia.
Qed.

Example text_content_capped_witness :
  Js.length (getTextContent [TextNode "  Save  "; OtherNode] "" 30)
  <= Z.max 0 30.
Proof.
  destruct (text_content_capped [TextNode "  Save  "; OtherNode] "" 30)
    as (_ & H).
  apply H. reflexivity.
Defined.

Lemma keep_set_spec keep attributes :
  NoDup (map fst attributes) ->
  forall k v,
    Js.obj_get k (keep_set keep attributes) = Some v
    <-> In (k, v) attributes /\ keep k = true.
Proof.
  unfold keep_set.
  induction attributes as [|[k0 v0] attributes IH] using rev_ind;
    intros Hnd k v.
  - simpl. split; [discriminate | now intros [[] _]].
  - rewrite map_app in Hnd. simpl in Hnd.
    apply NoDup_remove in Hnd. rewrite app_nil_r in Hnd.
    destruct Hnd as [Hnd Hnot].
    rewrite fold_left_app; simpl.
    destruct (keep k0) eqn:Hk0.
    + destruct (String.eqb_spec k k0) as [->|Hne].
      * rewrite SanitizerMore.obj_get_set_same. split.
        -- intros H; inversion H; subst. split; [|assumption].
           apply in_or_app; right; now left.
        -- intros [Hin _]. apply in_app_or in Hin.
           destruct Hin as [Hin|[Heq|[]]].
           ++ exfalso. apply Hnot.
              apply in_map_iff. exists (k0, v). now split.
           ++ now inversion Heq.
      * rewrite SanitizerFacts.obj_get_set_other by assumption.
        rewrite (IH Hnd). split.
        -- intros [Hin Hk]. split; [|assumption].
           apply in_or_app; now left.
        -- intros [Hin Hk]. split; [|assumption].
           apply in_app_or in Hin. destruct Hin as [Hin|[Heq|[]]];
             [assumption|]. inversion Heq; congruence.
    + rewrite (IH Hnd). split.
      * intros [Hin Hk]. split; [|assumption].
        apply in_or_app; now left.
      * intros [Hin Hk]. split; [|assumption].
        apply in_app_or in Hin. destruct Hin as [Hin|[Heq|[]]];
          [assumption|]. inversion Heq; congruence.
Qed.

(** X26.  The data attributes of an element (its attribute names
    being distinct): [getDataAttributes] holds exactly the
    attributes whose name starts with [data-], with their values;
    [getDataAttributesFromElement] of the Safari content script
    holds those of them whose name does not start with [data-ccr],
    so a [data-ai-context] attribute is always passed on. *)
Theorem data_attributes_exact :
  forall attributes : list (string * string),
    NoDup (map fst attributes) ->
    (forall k v,
       Js.obj_get k (getDataAttributes attributes) = Some v
       <-> In (k, v) attributes /\ Js.startsWith "data-" k = true)
    /\ (forall k v,
          Js.obj_get k (getDataAttributesFromElement attributes) = Some v
          <-> In (k, v) attributes
              /\ (Js.startsWith "data-" k
                  && negb (Js.startsWith "data-ccr" k))%bool = true)
    /\ (forall v,
          In ("data-ai-context", v) attributes ->
          Js.obj_get "data-ai-context"
            (getDataAttributesFromElement attributes) = Some v).
Proof.
  intros attributes Hnd.
  pose proof (keep_set_spec (Js.startsWith "data-") attributes Hnd) as H1.
  pose proof (keep_set_spec
                (fun k => (Js.startsWith "data-" k
                           && negb (Js.startsWith "data-ccr" k))%bool)
                attributes Hnd) as H2.
  split; [exact H1|]. split; [exact H2|].
  intros v Hin. apply H2. now split.
Qed.

Example data_attributes_witness :
  Js.obj_get "data-ai-context"
    (getDataAttributesFromElement
       [("class", "card"); ("data-ccr-id", "7");
        ("data-ai-context", "{}")])
  = Some "{}".
Proof.
  destruct (data_attributes_exact
              [("class", "card"); ("data-ccr-id", "7");
               ("data-ai-context", "{}")]) as (_ & _ & H).
  - repeat constructor; simpl; intuition discriminate.
  - apply H. right; right; left; reflexivity.
Defined.

End DomMore.

(* ================================================================== *)
(** * More on the always-on tap and the developer context *)
(* ================================================================== *)

Module TapMore.
Import RingBuffer StringFacts.

(** X27.  The always-on console log of the Safari content script is
    a FIFO window: whatever the writers (console calls, [error]
    events, unhandled rejections), it holds the latest 50 entries
    written, oldest first. *)
Theorem content_console_keeps_latest :
  forall (now : Z) (href : string) (events : list ContentTap.ConsoleEvent),
    ContentTap.consoleLog
      (fold_left (ContentTap.console_step now href) events
         (ContentTap.mkTap [] []))
    = skipn (List.length events - Z.to_nat ContentTap.MAX_CONSOLE_ENTRIES)
        (map (fun e => ContentTap.entry_of e now href) events).
Proof.
  intros now href events.
  assert (Hfold : forall evs t,
             ContentTap.consoleLog
               (fold_left (ContentTap.console_step now href) evs t)
             = fold_left (SessionRecorder.capped ContentTap.MAX_CONSOLE_ENTRIES)
                 (map (fun e => ContentTap.entry_of e now href) evs)
                 (ContentTap.consoleLog t)).
  { induction evs as [|e evs IH]; intros t; simpl; [reflexivity|].
    now rewrite IH. }
  rewrite Hfold; simpl ContentTap.consoleLog.
  change ContentTap.MAX_CONSOLE_ENTRIES
    with (Z.of_nat (Z.to_nat ContentTap.MAX_CONSOLE_ENTRIES)) at 1.
  rewrite fold_capped by (simpl; lia). simpl app.
  now rewrite length_map.
Qed.

(** X28.  [addNetworkEntry] keeps the always-on network log within
    its cap of 50, stores a URL of at most 503 characters (500 and the
    dots) and leaves the console log alone. *)
Theorem content_network_entry_bounded :
  forall (entry : ContentTap.NetworkEntry) (t : ContentTap.Tap)
         (d : ContentTap.NetworkEntry),
    Z.of_nat (List.length (ContentTap.networkLog t))
    <= ContentTap.MAX_NETWORK_ENTRIES ->
    let t' := ContentTap.addNetworkEntry entry t in
    Z.of_nat (List.length (ContentTap.networkLog t'))
    <= ContentTap.MAX_NETWORK_ENTRIES
    /\ Js.length (ContentTap.n_url (last (ContentTap.networkLog t') d)) <= 503
    /\ ContentTap.consoleLog t' = ContentTap.consoleLog t.
Proof.
  intros entry t d Hlen; cbv zeta. unfold ContentTap.addNetworkEntry.
  simpl ContentTap.networkLog. simpl ContentTap.consoleLog.
  split; [now apply SessionMore.capped_within|]. split; [|reflexivity].
  change ContentTap.MAX_NETWORK_ENTRIES with (Z.of_nat 50).
  rewrite SessionMore.capped_last by lia.
  destruct (String.eqb_spec (ContentTap.n_url entry) "") as [He|He]; simpl.
  - rewrite He. unfold Js.length; simpl; lia.
  - destruct (Z.gtb_spec (Js.length (ContentTap.n_url entry)) 500); simpl.
    + rewrite length_append. change (Js.length "...") with 3.
      pose proof (substring0_le 500 (ContentTap.n_url entry)). lia.
    + lia.
Qed.

Example content_network_entry_witness :
  let t' := ContentTap.addNetworkEntry
              (ContentTap.mkNet "/api" "GET" 200 "OK" 12 false "fetch" 1)
              (ContentTap.mkTap [] []) in
  Z.of_nat (List.length (ContentTap.networkLog t'))
  <= ContentTap.MAX_NETWORK_ENTRIES
  /\ Js.length
       (ContentTap.n_url
          (last (ContentTap.networkLog t')
             (ContentTap.mkNet "" "" 0 "" 0 false "" 0))) <= 503
  /\ ContentTap.consoleLog t' = [].
Proof.
  apply (content_network_entry_bounded
           (ContentTap.mkNet "/api" "GET" 200 "OK" 12 false "fetch" 1)
           (ContentTap.mkTap [] [])
           (ContentTap.mkNet "" "" 0 "" 0 false "" 0)).
  vm_compute. discriminate.
Defined.

End TapMore.

Module ReportMore.
Import ElementReport.

Lemma apply_file_context dc d :
  developerContext (apply_file dc d) = developerContext d.
Proof.
  unfold apply_file. destruct (member dc "file") as [f|]; [|reflexivity].
  destruct (truthy f); [|reflexivity].
  destruct (component d), f; reflexivity.
Qed.

(** X29.  The developer-declared component fills the gap: when
    introspection left the name empty and the attribute holds a JSON
    object with a component, that component becomes the reported
    name, and the parsed object is kept as [developerContext]. *)
Theorem developer_context_fills_missing_name :
  forall (JSON_parse : string -> option Json) (a : string)
         (fields : list (string * Json)) (c : ComponentInfo) (cv : Json)
         (d : Data),
    a <> "" ->
    JSON_parse a = Some (JObject fields) ->
    component d = Some c ->
    truthy (Some (name c)) = false ->
    Js.obj_get "component" fields = Some cv ->
    truthy (Some cv) = true ->
    let d' := apply_developer_context JSON_parse (Some a) d in
    (exists c', component d' = Some c' /\ name c' = cv)
    /\ developerContext d' = JObject fields.
Proof.
  intros parse a fields c cv d Ha Hparse Hc Hname Hget Hcv; cbv zeta.
  unfold apply_developer_context.
  destruct (String.eqb_spec a ""); [contradiction|].
  rewrite Hparse. simpl member. rewrite Hget, Hcv.
  cbn [component]. rewrite Hc. cbv iota beta.
  simpl in Hname. cbn [truthy]. rewrite Hname.
  cbn [negb]. cbv iota. split.
  - destruct (ReportFacts.apply_file_name (JObject fields)
                (mkData (Some (mkComponent cv (props c) (state c) (file c)))
                   (JObject fields))
                (mkComponent cv (props c) (state c) (file c)) eq_refl)
      as (c' & Hc' & Hn).
    exists c'. now split.
  - now rewrite apply_file_context.
Qed.

Example developer_context_fills_witness :
  let d' := apply_developer_context (fun _ => Some declared)
              (Some "{...}")
              (mkData (Some (mkComponent JNull None None JNull)) JNull) in
  (exists c', component d' = Some c' /\ name c' = JString "Widget")
  /\ developerContext d' = declared.
Proof.
  apply (developer_context_fills_missing_name (fun _ => Some declared)
           "{...}"
           [("component", JString "Widget");
            ("file", JString "dev/Widget.tsx")]
           (mkComponent JNull None None JNull) (JString "Widget")
           (mkData (Some (mkComponent JNull None None JNull)) JNull));
    try reflexivity. discriminate.
Defined.

End ReportMore.
